(** * A line-delimited JSON request/response server (server.py)

    Shallow embedding of the server core: response construction, request
    validation, dispatch, and the per-connection session loop with its
    shared active-connection counter. *)

From Stdlib Require Import List ZArith NArith Bool String Ascii Lia.
Import ListNotations.

Set Warnings "-register-all".
Local Open Scope Z_scope.

(** ** Python strings

    A Python [str] is a sequence of Unicode code points. *)

Definition pystr := list N.

(** The string literals of the source are all ASCII. *)
Definition u (s : string) : pystr :=
  map N_of_ascii (list_ascii_of_string s).

Fixpoint str_eqb (a b : pystr) : bool :=
  match a, b with
  | [], [] => true
  | x :: a', y :: b' => N.eqb x y && str_eqb a' b'
  | _, _ => false
  end.

Fixpoint str_startswith (s prefix : pystr) : bool :=
  match prefix, s with
  | [], _ => true
  | p :: prefix', c :: s' => N.eqb p c && str_startswith s' prefix'
  | _ :: _, [] => false
  end.

(** [needle in hay] for two strings: substring test. *)
Fixpoint str_contains (hay needle : pystr) : bool :=
  str_startswith hay needle ||
  match hay with
  | [] => false
  | _ :: hay' => str_contains hay' needle
  end.

(** [str.strip()] with no argument removes the code points for which
    [str.isspace] holds, at both ends. *)
Definition is_space (c : N) : bool :=
  (((9 <=? c) && (c <=? 13)) || ((28 <=? c) && (c <=? 32))
   || (c =? 133) || (c =? 160) || (c =? 5760)
   || ((8192 <=? c) && (c <=? 8202))
   || (c =? 8232) || (c =? 8233) || (c =? 8239) || (c =? 8287)
   || (c =? 12288))%N.

Fixpoint lstrip (s : pystr) : pystr :=
  match s with
  | [] => []
  | c :: s' => if is_space c then lstrip s' else s
  end.

Definition rstrip (s : pystr) : pystr := rev (lstrip (rev s)).

Definition strip (s : pystr) : pystr := rstrip (lstrip s).

(** [str.upper()] maps every code point through the full upper-case mapping
    and concatenates. On ASCII the mapping is the usual one; beyond ASCII it
    is the Unicode table [to_upper_full], which the source does not carry. *)
Definition upper_char (to_upper_full : N -> pystr) (c : N) : pystr :=
  (if c <? 128
   then if (97 <=? c) && (c <=? 122) then [c - 32] else [c]
   else to_upper_full c)%N.

Definition upper (to_upper_full : N -> pystr) (s : pystr) : pystr :=
  flat_map (upper_char to_upper_full) s.

(** ** JSON values, as [json.loads] builds them

    An object is a Python [dict] with string keys, kept in insertion order
    (the order [json.dumps] writes them in). A float is carried by its
    binary64 bit pattern; the server never computes with one. *)

Inductive json : Type :=
| JNull
| JBool (b : bool)
| JInt (z : Z)
| JFloat (bits : N)
| JStr (s : pystr)
| JList (l : list json)
| JDict (d : list (pystr * json)).

Definition dict := list (pystr * json).

Fixpoint dict_get (d : dict) (k : pystr) : option json :=
  match d with
  | [] => None
  | (k', v) :: d' => if str_eqb k k' then Some v else dict_get d' k
  end.

(** [d[k] = v]: an existing key keeps its position. *)
Fixpoint dict_set (d : dict) (k : pystr) (v : json) : dict :=
  match d with
  | [] => [(k, v)]
  | (k', v') :: d' =>
      if str_eqb k k' then (k', v) :: d' else (k', v') :: dict_set d' k v
  end.

Definition dict_has (d : dict) (k : pystr) : bool :=
  match dict_get d k with Some _ => true | None => false end.

Definition is_str (v : json) : bool :=
  match v with JStr _ => true | _ => false end.

Definition is_dict (v : json) : bool :=
  match v with JDict _ => true | _ => false end.

(** ** Exceptions *)

Inductive exn : Type :=
| JSONDecodeError
| ConnectionResetError
| OtherException (type_name : pystr).

(** [type(ex).__name__] *)
Definition type_name_of (e : exn) : pystr :=
  match e with
  | JSONDecodeError => u "JSONDecodeError"
  | ConnectionResetError => u "ConnectionResetError"
  | OtherException n => n
  end.

Definition TypeError : exn := OtherException (u "TypeError").
Definition KeyError : exn := OtherException (u "KeyError").
Definition AttributeError : exn := OtherException (u "AttributeError").

Inductive result (A : Type) : Type :=
| Ok (a : A)
| Raise (e : exn).

Arguments Ok {A} a.
Arguments Raise {A} e.

(** ** Python operators on JSON values *)

(** [k in c] for a string [k]. *)
Definition py_contains (c : json) (k : pystr) : result bool :=
  match c with
  | JDict d => Ok (dict_has d k)
  | JList l => Ok (existsb (fun v => match v with
                                     | JStr s => str_eqb k s
                                     | _ => false
                                     end) l)
  | JStr s => Ok (str_contains s k)
  | _ => Raise TypeError
  end.

(** [c[k]] for a string [k]. *)
Definition py_getitem (c : json) (k : pystr) : result json :=
  match c with
  | JDict d => match dict_get d k with
               | Some v => Ok v
               | None => Raise KeyError
               end
  | _ => Raise TypeError
  end.

(** [v.strip()] *)
Definition py_strip (v : json) : result pystr :=
  match v with
  | JStr s => Ok (strip s)
  | _ => Raise AttributeError
  end.

(** [data or {}] for [data : dict | None]. *)
Definition or_empty (data : option dict) : dict :=
  match data with
  | Some ((_ :: _) as d) => d
  | _ => []
  end.

(** ** Constants of the module *)

Definition SERVER_NAME : pystr := u "Tinashe-NetServer".

(** ** The world a session runs in *)

(** What [DATA_FILE] holds when [load_local_data] looks at it. *)
Inductive file_state : Type :=
| FileMissing                 (* os.path.exists is false *)
| FileUnreadable              (* open or read raises OSError *)
| FileNotJson                 (* json.load raises JSONDecodeError *)
| FileCrash (type_name : pystr) (* reading raises another exception,
                                   such as UnicodeDecodeError *)
| FileJson (v : json).        (* json.load returns v *)

(** What [file_like.readline()] does: it returns a string, empty at the end
    of the stream, or raises. *)
Inductive read_result : Type :=
| Line (s : pystr)
| ReadRaises (e : exn).

(** What [json.loads] does on a string. *)
Inductive loads_result : Type :=
| Loaded (v : json)
| NotJson                          (* raises json.JSONDecodeError *)
| LoadsCrash (type_name : pystr).  (* raises another exception *)

(** The library and platform services the module calls. *)
Record host : Type := mkHost {
  json_loads : pystr -> loads_result;
  to_upper_full : N -> pystr;
  clock : nat -> pystr;          (* the n-th reading of the clock, formatted *)
  platform_platform : pystr
}.

(** Observable actions of one session, in order. [Acquire d] records by how
    much the other sessions changed the counter before this session got the
    lock. *)
Inductive event : Type :=
| Acquire (d : Z)
| Release
| Incr
| Decr
| ReadCount (v : Z)
| Sendall (resp : dict) (fault : option exn)
| Close (fault : option exn).

Record world : Type := mkWorld {
  active_clients : Z;              (* the global counter *)
  lock_held : bool;                (* active_clients_lock, held by us *)
  others : list Z;                 (* changes by other sessions, per acquire *)
  data_file : file_state;
  ticks : nat;                     (* clock readings taken so far *)
  send_faults : list (option exn); (* outcome of the coming sendall calls *)
  close_fault : option exn;        (* outcome of conn.close() *)
  log : list event
}.

(** ** State and exception monad *)

Definition M (A : Type) : Type := world -> result A * world.

Definition ret {A} (a : A) : M A := fun w => (Ok a, w).

Definition raise {A} (e : exn) : M A := fun w => (Raise e, w).

Definition bind {A B} (m : M A) (k : A -> M B) : M B :=
  fun w =>
    match m w with
    | (Ok a, w') => k a w'
    | (Raise e, w') => (Raise e, w')
    end.

Notation "x <- m ;; k" := (bind m (fun x => k))
  (at level 61, m at next level, right associativity).
Notation "m ;; k" := (bind m (fun _ => k))
  (at level 61, right associativity).

Definition lift {A} (r : result A) : M A := fun w => (r, w).

(** [try: m  except Exception as e: h e] *)
Definition try_except {A} (m : M A) (h : exn -> M A) : M A :=
  fun w =>
    match m w with
    | (Ok a, w') => (Ok a, w')
    | (Raise e, w') => h e w'
    end.

(** [try: m  finally: f] *)
Definition try_finally {A} (m : M A) (f : M unit) : M A :=
  fun w =>
    match m w with
    | (r, w') =>
        match f w' with
        | (Ok _, w'') => (r, w'')
        | (Raise e, w'') => (Raise e, w'')
        end
    end.

Definition emit (e : event) (w : world) : world :=
  mkWorld (active_clients w) (lock_held w) (others w) (data_file w)
          (ticks w) (send_faults w) (close_fault w) (log w ++ [e]).

Definition acquire : M unit :=
  fun w =>
    let d := hd 0 (others w) in
    (Ok tt,
     mkWorld (active_clients w + d) true (tl (others w)) (data_file w)
             (ticks w) (send_faults w) (close_fault w)
             (log w ++ [Acquire d])).

Definition release : M unit :=
  fun w =>
    (Ok tt,
     mkWorld (active_clients w) false (others w) (data_file w)
             (ticks w) (send_faults w) (close_fault w)
             (log w ++ [Release])).

(** [with active_clients_lock: body] *)
Definition with_lock {A} (body : M A) : M A :=
  acquire ;; try_finally body release.

Definition read_count : M Z :=
  fun w => (Ok (active_clients w), emit (ReadCount (active_clients w)) w).

Definition add_count (delta : Z) (e : event) : M unit :=
  fun w =>
    (Ok tt,
     mkWorld (active_clients w + delta) (lock_held w) (others w) (data_file w)
             (ticks w) (send_faults w) (close_fault w) (log w ++ [e])).

(** [conn.sendall((json.dumps(resp) + "\n").encode("utf-8"))]: the frame is
    kept as the response object it serialises. *)
Definition sendall (resp : dict) : M unit :=
  fun w =>
    let fault := hd None (send_faults w) in
    let w' := mkWorld (active_clients w) (lock_held w) (others w)
                      (data_file w) (ticks w) (tl (send_faults w))
                      (close_fault w) (log w ++ [Sendall resp fault]) in
    match fault with
    | None => (Ok tt, w')
    | Some e => (Raise e, w')
    end.

Definition conn_close : M unit :=
  fun w =>
    match close_fault w with
    | None => (Ok tt, emit (Close None) w)
    | Some e => (Raise e, emit (Close (Some e)) w)
    end.

(** ** The server *)

(** The dict literal [{"code": code, "message": message}]. *)
Definition error_obj (code message : pystr) : dict :=
  [(u "code", JStr code); (u "message", JStr message)].

Definition make_response (request_id : json) (status : pystr)
    (data : option dict) (error : option dict) : dict :=
  [ (u "request_id", request_id);
    (u "status", JStr status);
    (u "data", JDict (or_empty data));
    (u "error", match error with
                | Some e => JDict e
                | None => JNull
                end) ].

Definition load_local_data : M json :=
  fun w =>
    match data_file w with
    | FileMissing => (Ok (JDict []), w)
    | FileJson v => (Ok v, w)
    | FileNotJson | FileUnreadable => (Ok (JDict []), w)
    | FileCrash n => (Raise (OtherException n), w)
    end.

Definition validate_request (obj : json) : bool * pystr :=
  match obj with
  | JDict d =>
      if negb (dict_has d (u "type"))
         || match dict_get d (u "type") with
            | Some (JStr s) => str_eqb (strip s) []
            | _ => true
            end
      then (false, u "Missing or invalid 'type' field")
      else if negb (dict_has d (u "request_id"))
         || match dict_get d (u "request_id") with
            | Some (JStr s) => str_eqb (strip s) []
            | _ => true
            end
      then (false, u "Missing or invalid 'request_id' field")
      else if negb (dict_has d (u "payload"))
         || match dict_get d (u "payload") with
            | Some (JDict _) => false
            | _ => true
            end
      then (false, u "Missing or invalid 'payload' field (must be an object)")
      else (true, [])
  | _ => (false, u "Request must be a JSON object")
  end.

Section Server.

Variable h : host.

Definition now_iso : M pystr :=
  fun w =>
    (Ok (clock h (ticks w)),
     mkWorld (active_clients w) (lock_held w) (others w) (data_file w)
             (S (ticks w)) (send_faults w) (close_fault w) (log w)).

(** [k not in payload or not isinstance(payload[k], str)], left to right. *)
Definition lacks_str (payload : json) (k : pystr) : result bool :=
  match py_contains payload k with
  | Raise e => Raise e
  | Ok false => Ok true
  | Ok true =>
      match py_getitem payload k with
      | Raise e => Raise e
      | Ok v => Ok (negb (is_str v))
      end
  end.

Definition handle_request (req : json) : M dict :=
  ty <- lift (py_getitem req (u "type")) ;;
  stripped <- lift (py_strip ty) ;;
  let req_type := upper (to_upper_full h) stripped in
  request_id <- lift (py_getitem req (u "request_id")) ;;
  payload <- lift (py_getitem req (u "payload")) ;;
  if str_eqb req_type (u "ECHO") then
    bad <- lift (lacks_str payload (u "message")) ;;
    if bad then
      ret (make_response request_id (u "ERROR") None
             (Some (error_obj (u "BAD_REQUEST")
                      (u "ECHO requires payload.message (string)"))))
    else
      message <- lift (py_getitem payload (u "message")) ;;
      ret (make_response request_id (u "OK")
             (Some [(u "echo", message)]) None)
  else if str_eqb req_type (u "SYSTEM_INFO") then
    count <- with_lock read_count ;;
    server_time <- now_iso ;;
    ret (make_response request_id (u "OK")
           (Some [ (u "server_name", JStr SERVER_NAME);
                   (u "server_time", JStr server_time);
                   (u "active_clients", JInt count);
                   (u "platform", JStr (platform_platform h)) ])
           None)
  else if str_eqb req_type (u "FILE_QUERY") then
    bad <- lift (lacks_str payload (u "key")) ;;
    blank <- (if bad then ret true
              else raw <- lift (py_getitem payload (u "key")) ;;
                   s <- lift (py_strip raw) ;;
                   ret (str_eqb s [])) ;;
    if blank then
      ret (make_response request_id (u "ERROR") None
             (Some (error_obj (u "BAD_REQUEST")
                      (u "FILE_QUERY requires payload.key (string)"))))
    else
      data <- load_local_data ;;
      raw <- lift (py_getitem payload (u "key")) ;;
      key <- lift (py_strip raw) ;;
      present <- lift (py_contains data key) ;;
      if negb present then
        ret (make_response request_id (u "ERROR") None
               (Some (error_obj (u "NOT_FOUND")
                        (u "Key '" ++ key ++ u "' not found"))))
      else
        value <- lift (py_getitem data key) ;;
        ret (make_response request_id (u "OK")
               (Some [(u "key", JStr key); (u "value", value)]) None)
  else if str_eqb req_type (u "HELP") then
    ret (make_response request_id (u "OK")
           (Some [ (u "supported_types",
                    JList [ JStr (u "ECHO"); JStr (u "SYSTEM_INFO");
                            JStr (u "FILE_QUERY"); JStr (u "HELP") ]) ])
           None)
  else
    ret (make_response request_id (u "ERROR") None
           (Some (error_obj (u "UNKNOWN_TYPE")
                    (u "Unknown request type: " ++ req_type)))).

(** The body of the read loop for one stripped, non-empty line: parse,
    validate, handle, reply. Every branch goes back to reading. *)
Definition client_thread_body (line : pystr) : M unit :=
  match json_loads h line with
  | NotJson =>
      sendall (make_response (JStr []) (u "ERROR") None
                 (Some (error_obj (u "INVALID_JSON")
                          (u "Could not parse JSON request"))))
  | LoadsCrash n => raise (OtherException n)
  | Loaded req_obj =>
      let (valid, msg) := validate_request req_obj in
      if negb valid then
        let request_id :=
          match req_obj with
          | JDict d => match dict_get d (u "request_id") with
                       | Some v => v
                       | None => JStr []
                       end
          | _ => JStr []
          end in
        sendall (make_response
                   (if is_str request_id then request_id else JStr [])
                   (u "ERROR") None
                   (Some (error_obj (u "BAD_REQUEST") msg)))
      else
        resp_obj <- handle_request req_obj ;;
        sendall resp_obj
  end.

(** [while True:] over the lines the peer sends. *)
Fixpoint client_thread_loop (reads : list read_result) : M unit :=
  match reads with
  | [] => ret tt                           (* end of stream: break *)
  | ReadRaises e :: _ => raise e
  | Line [] :: _ => ret tt                 (* client disconnected: break *)
  | Line line :: rest =>
      match strip line with
      | [] => client_thread_loop rest      (* continue *)
      | stripped => client_thread_body stripped ;; client_thread_loop rest
      end
  end.

(** The two [except] clauses of [client_thread]. *)
Definition on_error (ex : exn) : M unit :=
  match ex with
  | ConnectionResetError => ret tt       (* client closed abruptly *)
  | _ =>
      try_except
        (sendall (make_response (JStr []) (u "ERROR") None
                    (Some (error_obj (u "SERVER_ERROR")
                             (u "Unexpected error: " ++ type_name_of ex)))))
        (fun _ => ret tt)
  end.

(** The [try] block with its [except] clauses. *)
Definition client_thread_try (reads : list read_result) : M unit :=
  try_except (client_thread_loop reads) on_error.

(** The [finally] block. *)
Definition client_thread_finally : M unit :=
  try_except conn_close (fun _ => ret tt) ;;
  with_lock (add_count (-1) Decr).

Definition client_thread (reads : list read_result) : M unit :=
  with_lock (add_count 1 Incr) ;;
  try_finally (client_thread_try reads) client_thread_finally.

End Server.

(** ** A concrete host, to run the definitions

    The theorems below hold for every [host]. To evaluate the server on
    concrete lines, [json_loads_fragment] decodes the JSON texts made of
    objects, arrays, strings without escapes, integers, [true], [false] and
    [null]; on these it returns what [json.loads] returns. Texts outside the
    fragment (floats, escapes) are reported as [NotJson] and are not used. *)

Definition json_ws (c : N) : bool :=
  ((c =? 32) || (c =? 9) || (c =? 10) || (c =? 13))%N.

Fixpoint skip_ws (s : pystr) : pystr :=
  match s with
  | [] => []
  | c :: r => if json_ws c then skip_ws r else s
  end.

Fixpoint scan_string (s acc : pystr) : option (pystr * pystr) :=
  match s with
  | [] => None
  | c :: r =>
      if (c =? 34)%N then Some (rev acc, r)
      else if ((c =? 92) || (c <? 32))%N then None
      else scan_string r (c :: acc)
  end.

Definition is_digit (c : N) : bool := ((48 <=? c) && (c <=? 57))%N.

Fixpoint scan_digits (s : pystr) (acc : Z) : Z * pystr :=
  match s with
  | [] => (acc, [])
  | c :: r =>
      if is_digit c then scan_digits r (10 * acc + Z.of_N (c - 48)) else (acc, s)
  end.

Definition scan_int (s : pystr) : option (Z * pystr) :=
  let (sign, body) :=
    match s with
    | 45%N :: r => (-1, r)
    | _ => (1, s)
    end in
  match body with
  | c :: r =>
      if is_digit c then
        if (c =? 48)%N && match r with c' :: _ => is_digit c' | [] => false end
        then None
        else
          let (n, rest) := scan_digits body 0 in
          match rest with
          | c' :: _ =>
              if ((c' =? 46) || (c' =? 101) || (c' =? 69))%N then None
              else Some (sign * n, rest)
          | [] => Some (sign * n, rest)
          end
      else None
  | [] => None
  end.

Fixpoint parse_value (fuel : nat) (s : pystr) : option (json * pystr) :=
  match fuel with
  | O => None
  | S f =>
      match skip_ws s with
      | [] => None
      | c :: r =>
          if (c =? 34)%N then
            match scan_string r [] with
            | Some (str, r') => Some (JStr str, r')
            | None => None
            end
          else if (c =? 91)%N then
            match skip_ws r with
            | 93%N :: r' => Some (JList [], r')
            | _ => parse_elems f r []
            end
          else if (c =? 123)%N then
            match skip_ws r with
            | 125%N :: r' => Some (JDict [], r')
            | _ => parse_members f r []
            end
          else if str_startswith (c :: r) (u "null") then
            Some (JNull, skipn 4 (c :: r))
          else if str_startswith (c :: r) (u "true") then
            Some (JBool true, skipn 4 (c :: r))
          else if str_startswith (c :: r) (u "false") then
            Some (JBool false, skipn 5 (c :: r))
          else
            match scan_int (c :: r) with
            | Some (n, r') => Some (JInt n, r')
            | None => None
            end
      end
  end
with parse_elems (fuel : nat) (s : pystr) (acc : list json)
    : option (json * pystr) :=
  match fuel with
  | O => None
  | S f =>
      match parse_value f s with
      | Some (v, r) =>
          match skip_ws r with
          | 44%N :: r' => parse_elems f r' (v :: acc)
          | 93%N :: r' => Some (JList (rev (v :: acc)), r')
          | _ => None
          end
      | None => None
      end
  end
with parse_members (fuel : nat) (s : pystr) (acc : dict)
    : option (json * pystr) :=
  match fuel with
  | O => None
  | S f =>
      match skip_ws s with
      | 34%N :: r =>
          match scan_string r [] with
          | Some (k, r1) =>
              match skip_ws r1 with
              | 58%N :: r2 =>
                  match parse_value f r2 with
                  | Some (v, r3) =>
                      match skip_ws r3 with
                      | 44%N :: r4 => parse_members f r4 (dict_set acc k v)
                      | 125%N :: r4 => Some (JDict (dict_set acc k v), r4)
                      | _ => None
                      end
                  | None => None
                  end
              | _ => None
              end
          | None => None
          end
      | _ => None
      end
  end.

Definition json_loads_fragment (s : pystr) : loads_result :=
  match parse_value (2 * List.length s + 2) s with
  | Some (v, rest) =>
      match skip_ws rest with
      | [] => Loaded v
      | _ => NotJson
      end
  | None => NotJson
  end.

(** Beyond ASCII the sample host leaves code points unchanged; the examples
    use ASCII request types only. *)
Definition sample_host : host :=
  mkHost json_loads_fragment (fun c => [c])
         (fun _ => u "2024-01-01T00:00:00+00:00") (u "Linux").

Definition idle_world (f : file_state) : world :=
  mkWorld 0 false [] f 0 [] None [].

(** JSON text written with an apostrophe standing for the double quote. *)
Definition json_text (s : string) : pystr :=
  map (fun c => if (c =? 39)%N then 34%N else c) (u s).

(** A line as [readline] returns it, with its newline. *)
Definition wire_line (s : string) : pystr := json_text s ++ [10%N].

Definition sample_request (ty : string) (payload : dict) : json :=
  JDict [ (u "type", JStr (u ty));
          (u "request_id", JStr (u "r1"));
          (u "payload", JDict payload) ].

Definition sample_table : dict := [(u "foo", JInt 5)].

(** A FILE_QUERY line for the key [k], with request id [r1]. *)
Definition query_k_line : pystr :=
  wire_line "{'type':'FILE_QUERY','request_id':'r1','payload':{'key':'k'}}".

(** A message with surrounding whitespace and code points beyond ASCII. *)
Definition sample_message : pystr :=
  u " hi " ++ [233%N; 20320%N; 128512%N; 10%N].

(** ** Reading a response *)

Definition resp_request_id (r : dict) : option json := dict_get r (u "request_id").
Definition resp_status (r : dict) : option json := dict_get r (u "status").
Definition resp_data (r : dict) : option json := dict_get r (u "data").
Definition resp_error (r : dict) : option json := dict_get r (u "error").

Definition error_code (r : dict) : option json :=
  match resp_error r with
  | Some (JDict e) => dict_get e (u "code")
  | _ => None
  end.

Definition error_message (r : dict) : option json :=
  match resp_error r with
  | Some (JDict e) => dict_get e (u "message")
  | _ => None
  end.

(** The normalised request type the dispatcher compares: trimmed, then
    upper-cased. *)
Definition normalised_type (h : host) (ty : pystr) : pystr :=
  upper (to_upper_full h) (strip ty).

(** A request object that passed [validate_request], with its three fields
    named. *)
Record validated (req : json) (ty : pystr) (rid : json) (payload : dict)
    : Prop := {
  v_valid : fst (validate_request req) = true;
  v_type : py_getitem req (u "type") = Ok (JStr ty);
  v_request_id : py_getitem req (u "request_id") = Ok rid;
  v_payload : py_getitem req (u "payload") = Ok (JDict payload)
}.

(** A response that reports success with the given payload, or failure
    with the given error code. *)
Definition is_ok (r : dict) (rid : json) (data : dict) : Prop :=
  resp_request_id r = Some rid /\
  resp_status r = Some (JStr (u "OK")) /\
  resp_data r = Some (JDict data) /\
  resp_error r = Some JNull.

Definition is_error (r : dict) (rid : json) (code message : pystr) : Prop :=
  resp_request_id r = Some rid /\
  resp_status r = Some (JStr (u "ERROR")) /\
  resp_data r = Some (JDict []) /\
  error_code r = Some (JStr code) /\
  error_message r = Some (JStr message).

(** [m] returns a response satisfying [P] and leaves the world as it was. *)
Definition returns (m : M dict) (w : world) (P : dict -> Prop) : Prop :=
  exists r, m w = (Ok r, w) /\ P r.

(** ** Reading a run *)

(** The events a computation adds to the log. *)
Definition trace_of {A} (m : M A) (w : world) : list event :=
  skipn (List.length (log w)) (log (snd (m w))).

(** The responses handed to [sendall], and those that went out. *)
Fixpoint attempted (evs : list event) : list dict :=
  match evs with
  | [] => []
  | Sendall r _ :: evs' => r :: attempted evs'
  | _ :: evs' => attempted evs'
  end.

Fixpoint sent (evs : list event) : list dict :=
  match evs with
  | [] => []
  | Sendall r None :: evs' => r :: sent evs'
  | _ :: evs' => sent evs'
  end.

(** The request id the session can recover from a decoded line. *)
Definition recoverable_id (decoded : loads_result) : pystr :=
  match decoded with
  | Loaded (JDict d) =>
      match dict_get d (u "request_id") with
      | Some (JStr rid) => rid
      | _ => []
      end
  | _ => []
  end.

(** The shape of a response: [data] is an object; with status OK it is
    non-empty and [error] is null; with status ERROR it is empty and [error]
    is an object of exactly a string [code] and a string [message]. *)
Definition shape_ok (r : dict) : bool :=
  match resp_status r, resp_data r, resp_error r with
  | Some (JStr status), Some (JDict data), Some error =>
      if str_eqb status (u "OK") then
        match data, error with
        | _ :: _, JNull => true
        | _, _ => false
        end
      else if str_eqb status (u "ERROR") then
        match data, error with
        | [], JDict [(k1, JStr _); (k2, JStr _)] =>
            str_eqb k1 (u "code") && str_eqb k2 (u "message")
        | _, _ => false
        end
      else false
  | _, _, _ => false
  end.

(** Counter bookkeeping read off a trace: what the other sessions did to the
    counter, what this session did to it, and how many times it wrote it. *)
Fixpoint drift (evs : list event) : Z :=
  match evs with
  | [] => 0
  | Acquire d :: evs' => d + drift evs'
  | _ :: evs' => drift evs'
  end.

Fixpoint own_change (evs : list event) : Z :=
  match evs with
  | [] => 0
  | Incr :: evs' => 1 + own_change evs'
  | Decr :: evs' => own_change evs' - 1
  | _ :: evs' => own_change evs'
  end.

Fixpoint counter_writes (evs : list event) : nat :=
  match evs with
  | [] => O
  | (Incr | Decr) :: evs' => S (counter_writes evs')
  | _ :: evs' => counter_writes evs'
  end.

(** The lock protocol: the lock is taken only when free, released only when
    held, the counter is touched only while it is held, and it is free at the
    end. *)
Fixpoint disciplined (held : bool) (evs : list event) : bool :=
  match evs with
  | [] => negb held
  | Acquire _ :: evs' => negb held && disciplined true evs'
  | Release :: evs' => held && disciplined false evs'
  | (Incr | Decr | ReadCount _) :: evs' => held && disciplined held evs'
  | (Sendall _ _ | Close _) :: evs' => disciplined held evs'
  end.

(** What the read loop and the handlers may add to a trace: responses of the
    right shape, locked reads of the counter, and the closing of the
    socket. *)
Inductive quiet : list event -> Prop :=
| quiet_nil : quiet []
| quiet_send r f evs :
    shape_ok r = true -> quiet evs -> quiet (Sendall r f :: evs)
| quiet_read d v evs :
    quiet evs -> quiet (Acquire d :: ReadCount v :: Release :: evs)
| quiet_close f evs :
    quiet evs -> quiet (Close f :: evs).

(** [w'] is [w] after the events [evs]: the log grew by them, the counter
    moved by what they say, and the data file and the socket's fate are
    unchanged. *)
Record evolves (w w' : world) (evs : list event) : Prop := {
  ev_log : log w' = log w ++ evs;
  ev_count : active_clients w' = active_clients w + drift evs + own_change evs;
  ev_file : data_file w' = data_file w;
  ev_close : close_fault w' = close_fault w
}.

(** [m] only adds quiet events, and what it returns satisfies [P]. *)
Definition quietly {A} (P : A -> Prop) (m : M A) : Prop :=
  forall w, exists evs,
    evolves w (snd (m w)) evs /\ quiet evs /\
    match fst (m w) with
    | Ok a => P a
    | Raise _ => True
    end.

Definition anything {A} (a : A) : Prop := True.

(** Exceptions other than the two the session names. *)
Definition ordinary (e : exn) : Prop :=
  match e with
  | OtherException _ => True
  | _ => False
  end.

(** Handling the decoded, validated line raises an exception. *)
Definition handler_raises (h : host) (line : pystr) (w : world) : bool :=
  match json_loads h line with
  | Loaded req =>
      fst (validate_request req) &&
      match fst (handle_request h req w) with
      | Raise _ => true
      | Ok _ => false
      end
  | _ => false
  end.

(** ** Vocabulary for the further properties *)

(** [d[k]] is a string that is not blank. *)
Definition usable_str (d : dict) (k : pystr) : bool :=
  match dict_get d k with
  | Some (JStr s) => negb (str_eqb (strip s) [])
  | _ => false
  end.

(** The reply of the last [except] clause of [client_thread]. *)
Definition server_error_reply (ex : exn) : dict :=
  make_response (JStr []) (u "ERROR") None
    (Some (error_obj (u "SERVER_ERROR")
             (u "Unexpected error: " ++ type_name_of ex))).

(** How many times a trace closes the socket. *)
Fixpoint closes (evs : list event) : nat :=
  match evs with
  | [] => O
  | Close _ :: evs' => S (closes evs')
  | _ :: evs' => closes evs'
  end.

(** The lines of a batch that are not blank. *)
Definition nonblank (lines : list pystr) : list pystr :=
  filter (fun line => negb (str_eqb (strip line) [])) lines.

(** No line of the batch makes [json.loads] raise anything but
    [JSONDecodeError]. *)
Definition decodes_cleanly (h : host) (lines : list pystr) : Prop :=
  forall line n, In line lines -> json_loads h (strip line) <> LoadsCrash n.

(** client.py: [build_request], given the string [str(uuid.uuid4())]
    produced for this call. *)
Definition build_request (uuid_str : pystr) (request_type : pystr)
    (payload : json) : json :=
  JDict [ (u "type", JStr request_type);
          (u "request_id", JStr uuid_str);
          (u "payload", payload) ].

(** The world once the session has registered itself in the counter. *)
Definition session_start (w : world) : world :=
  snd (with_lock (add_count 1 Incr) w).

(** Every counter read of the trace saw the value [c], and no other session
    changed the counter at any acquisition. *)
Definition undisturbed (c : Z) (evs : list event) : Prop :=
  Forall (fun e => match e with
                   | ReadCount v => v = c
                   | Acquire d => d = 0
                   | _ => True
                   end) evs.

(** client.py: what one turn of the menu loop of [main] decides, from the
    line typed at the menu, the line typed at the follow-up prompt (read
    only for choices 1 and 3) and the id string drawn for the request. *)
Inductive menu_action : Type :=
| SendRequest (req : json)
| ExitClient
| InvalidChoice.

Definition menu_turn (uuid_str choice_line typed : pystr) : menu_action :=
  let choice := strip choice_line in
  if str_eqb choice (u "1") then
    SendRequest (build_request uuid_str (u "ECHO")
                   (JDict [(u "message", JStr typed)]))
  else if str_eqb choice (u "2") then
    SendRequest (build_request uuid_str (u "SYSTEM_INFO") (JDict []))
  else if str_eqb choice (u "3") then
    SendRequest (build_request uuid_str (u "FILE_QUERY")
                   (JDict [(u "key", JStr typed)]))
  else if str_eqb choice (u "4") then
    SendRequest (build_request uuid_str (u "HELP") (JDict []))
  else if str_eqb choice (u "5") then ExitClient
  else InvalidChoice.

(** A world in which two other sessions are registered and more come and go
    while the lock is awaited. *)
Definition busy_world : world :=
  mkWorld 2 false [3; -1] FileMissing 0 [] None [].

(** A world whose next [sendall] fails because the peer reset the
    connection. *)
Definition reset_world : world :=
  mkWorld 0 false [] FileMissing 0 [Some ConnectionResetError] None [].

(** The counter's value after a trace, starting from [c]: each acquisition
    brings in what the other sessions did, [Incr] adds one, [Decr] takes one
    off, and a read must have seen the value the counter then has. *)
Fixpoint replay (c : Z) (evs : list event) : option Z :=
  match evs with
  | [] => Some c
  | Acquire d :: evs' => replay (c + d) evs'
  | Incr :: evs' => replay (c + 1) evs'
  | Decr :: evs' => replay (c - 1) evs'
  | ReadCount v :: evs' => if v =? c then replay c evs' else None
  | _ :: evs' => replay c evs'
  end.

(** * Properties *)

(** ** Strings and dictionaries *)

Lemma str_eqb_refl (s : pystr) : str_eqb s s = true.
Proof.
  induction s as [|c s IH]; simpl; [reflexivity|].
  now rewrite N.eqb_refl, IH.
Qed.

Lemma str_eqb_eq (a b : pystr) : str_eqb a b = true <-> a = b.
Proof.
  split.
  - revert b. induction a as [|x a IH]; destruct b as [|y b]; simpl;
      try discriminate; [reflexivity|].
    intros H. apply andb_true_iff in H. destruct H as [Hx Hab].
    apply N.eqb_eq in Hx. now rewrite Hx, (IH b Hab).
  - intros ->. apply str_eqb_refl.
Qed.

Lemma str_eqb_neq (a b : pystr) : a <> b -> str_eqb a b = false.
Proof.
  intros H. destruct (str_eqb a b) eqn:E; [|reflexivity].
  apply str_eqb_eq in E. contradiction.
Qed.

Lemma str_eqb_nil (s : pystr) : str_eqb s [] = false -> s <> [].
Proof. intros H ->. discriminate. Qed.

(** What passing validation says about the three fields. *)
Lemma validate_request_ok (req : json) :
  fst (validate_request req) = true ->
  exists d ty rid p,
    req = JDict d /\
    dict_get d (u "type") = Some (JStr ty) /\ strip ty <> [] /\
    dict_get d (u "request_id") = Some (JStr rid) /\ strip rid <> [] /\
    dict_get d (u "payload") = Some (JDict p).
Proof.
  destruct req as [| | | | |l|d]; try discriminate.
  unfold validate_request, dict_has.
  destruct (dict_get d (u "type")) as [[| | | |ty| |]|] eqn:Ety;
    try discriminate.
  destruct (str_eqb (strip ty) []) eqn:Esty; try discriminate.
  destruct (dict_get d (u "request_id")) as [[| | | |rid| |]|] eqn:Erid;
    try discriminate.
  destruct (str_eqb (strip rid) []) eqn:Esrid; try discriminate.
  destruct (dict_get d (u "payload")) as [[| | | | | |p]|] eqn:Ep;
    try discriminate.
  intros _. exists d, ty, rid, p.
  repeat split; auto using str_eqb_nil.
Qed.

Lemma validated_intro (req : json) :
  fst (validate_request req) = true ->
  exists ty rid p, validated req ty (JStr rid) p.
Proof.
  intros H. destruct (validate_request_ok req H)
    as (d & ty & rid & p & -> & Hty & _ & Hrid & _ & Hp).
  exists ty, rid, p. split; auto; unfold py_getitem.
  - now rewrite Hty.
  - now rewrite Hrid.
  - now rewrite Hp.
Qed.

(** ** The server on sample lines *)

Example strip_both_ends :
  strip ([9%N; 160%N] ++ u " a b " ++ [13%N; 10%N]) = u "a b".
Proof. reflexivity. Qed.

Example upper_ascii (tbl : N -> pystr) :
  upper tbl (u "System_Info") = u "SYSTEM_INFO".
Proof. reflexivity. Qed.

Example echo_line_answer :
  sent (trace_of
          (client_thread sample_host
             [Line (wire_line
                "{'type':'ECHO','request_id':'r1','payload':{'message':'hi'}}")])
          (idle_world FileMissing))
  = [ [ (u "request_id", JStr (u "r1"));
        (u "status", JStr (u "OK"));
        (u "data", JDict [(u "echo", JStr (u "hi"))]);
        (u "error", JNull) ] ].
Proof. reflexivity. Qed.

Example lower_case_type_same_answer :
  client_thread sample_host
    [Line (wire_line
       "{'type':'echo','request_id':'r1','payload':{'message':'hi'}}")]
    (idle_world FileMissing)
  = client_thread sample_host
      [Line (wire_line
         "{'type':'ECHO','request_id':'r1','payload':{'message':'hi'}}")]
      (idle_world FileMissing).
Proof. reflexivity. Qed.

Example missing_key_not_found :
  map error_code
    (sent (trace_of
             (client_thread sample_host
                [Line (wire_line
                   "{'type':'FILE_QUERY','request_id':'r2','payload':{'key':'missing-key'}}")])
             (idle_world FileMissing)))
  = [Some (JStr (u "NOT_FOUND"))].
Proof. reflexivity. Qed.

Example not_json_then_help :
  map (fun r => (resp_request_id r, resp_status r, error_code r))
    (sent (trace_of
             (client_thread sample_host
                [ Line (u "not json" ++ [10%N]);
                  Line (wire_line "{'type':'HELP','request_id':'r3','payload':{}}") ])
             (idle_world FileMissing)))
  = [ (Some (JStr []), Some (JStr (u "ERROR")), Some (JStr (u "INVALID_JSON")));
      (Some (JStr (u "r3")), Some (JStr (u "OK")), None) ].
Proof. reflexivity. Qed.

Example system_info_counts_this_session :
  map (fun r => match resp_data r with
                | Some (JDict d) => dict_get d (u "active_clients")
                | _ => None
                end)
    (sent (trace_of
             (client_thread sample_host
                [Line (wire_line
                   "{'type':'SYSTEM_INFO','request_id':'r4','payload':{}}")])
             (mkWorld 2 false [0; 3] FileMissing 0 [] None [])))
  = [Some (JInt 6)].
Proof. reflexivity. Qed.

(** ** The dispatcher *)

Section Dispatcher.

Variable h : host.

(** Entering [handle_request] with a validated request: the three reads
    succeed and the type is normalised. *)
Ltac enter Hv :=
  destruct Hv as [_ Hty Hrid Hp];
  unfold returns, handle_request, bind, lift;
  rewrite Hty; cbn [py_strip]; rewrite Hrid, Hp;
  unfold normalised_type in *.

Ltac answer := eexists; split; [reflexivity|]; repeat split.

(** C5. A validated ECHO request with a string [payload.message] is answered
    OK with [data = {echo: message}], the message unchanged; without a string
    message it is answered ERROR with code BAD_REQUEST. *)
Theorem echo_round_trip (req : json) (ty : pystr) (rid : json)
    (payload : dict) (w : world) :
  validated req ty rid payload ->
  normalised_type h ty = u "ECHO" ->
  returns (handle_request h req) w (fun r =>
    match dict_get payload (u "message") with
    | Some (JStr message) => is_ok r rid [(u "echo", JStr message)]
    | _ => is_error r rid (u "BAD_REQUEST")
             (u "ECHO requires payload.message (string)")
    end).
Proof.
  intros Hv Htype. enter Hv. rewrite Htype.
  change (str_eqb (u "ECHO") (u "ECHO")) with true. cbv iota.
  unfold lacks_str, py_contains, py_getitem, dict_has.
  destruct (dict_get payload (u "message")) as [[| | | |m| |]|]; answer.
Qed.

(** C8. A validated HELP request is always answered OK, with
    [data.supported_types] the list ECHO, SYSTEM_INFO, FILE_QUERY, HELP in
    that order. *)
Theorem help_lists_supported_types (req : json) (ty : pystr) (rid : json)
    (payload : dict) (w : world) :
  validated req ty rid payload ->
  normalised_type h ty = u "HELP" ->
  returns (handle_request h req) w (fun r =>
    is_ok r rid
      [ (u "supported_types",
         JList [ JStr (u "ECHO"); JStr (u "SYSTEM_INFO");
                 JStr (u "FILE_QUERY"); JStr (u "HELP") ]) ]).
Proof.
  intros Hv Htype. enter Hv. rewrite Htype.
  change (str_eqb (u "HELP") (u "ECHO")) with false.
  change (str_eqb (u "HELP") (u "SYSTEM_INFO")) with false.
  change (str_eqb (u "HELP") (u "FILE_QUERY")) with false.
  change (str_eqb (u "HELP") (u "HELP")) with true.
  cbv iota. answer.
Qed.

(** C3, amended. A validated request whose normalised type (trimmed, then
    upper-cased) is none of ECHO, SYSTEM_INFO, FILE_QUERY, HELP is answered
    ERROR with code UNKNOWN_TYPE, and the message carries the normalised
    type, not the string as the client sent it. *)
Theorem unknown_type_echoes_normalised (req : json) (ty : pystr) (rid : json)
    (payload : dict) (w : world) :
  validated req ty rid payload ->
  normalised_type h ty <> u "ECHO" ->
  normalised_type h ty <> u "SYSTEM_INFO" ->
  normalised_type h ty <> u "FILE_QUERY" ->
  normalised_type h ty <> u "HELP" ->
  returns (handle_request h req) w (fun r =>
    is_error r rid (u "UNKNOWN_TYPE")
      (u "Unknown request type: " ++ normalised_type h ty)).
Proof.
  intros Hv H1 H2 H3 H4. enter Hv.
  rewrite (str_eqb_neq _ _ H1), (str_eqb_neq _ _ H2),
    (str_eqb_neq _ _ H3), (str_eqb_neq _ _ H4).
  answer.
Qed.

(** Entering the FILE_QUERY branch. *)
Ltac enter_file_query Hv Htype :=
  enter Hv; rewrite Htype;
  change (str_eqb (u "FILE_QUERY") (u "ECHO")) with false;
  change (str_eqb (u "FILE_QUERY") (u "SYSTEM_INFO")) with false;
  change (str_eqb (u "FILE_QUERY") (u "FILE_QUERY")) with true;
  cbv iota;
  unfold lacks_str, py_contains, py_getitem, dict_has.

(** FILE_QUERY with a usable key: the stripped key is looked up in the
    table. *)
Lemma file_query_lookup (req : json) (ty : pystr) (rid : json)
    (payload tbl : dict) (key : pystr) (w : world) :
  validated req ty rid payload ->
  normalised_type h ty = u "FILE_QUERY" ->
  load_local_data w = (Ok (JDict tbl), w) ->
  dict_get payload (u "key") = Some (JStr key) ->
  strip key <> [] ->
  handle_request h req w =
  (Ok match dict_get tbl (strip key) with
      | None =>
          make_response rid (u "ERROR") None
            (Some (error_obj (u "NOT_FOUND")
                     (u "Key '" ++ strip key ++ u "' not found")))
      | Some value =>
          make_response rid (u "OK")
            (Some [(u "key", JStr (strip key)); (u "value", value)]) None
      end, w).
Proof.
  intros Hv Htype Hload Hkey Hnonblank. enter_file_query Hv Htype.
  rewrite Hkey. cbn [is_str negb py_strip ret]. cbv beta iota.
  rewrite (str_eqb_neq _ _ Hnonblank), Hload. cbv beta iota.
  now destruct (dict_get tbl (strip key)).
Qed.

(** The outcomes of a validated FILE_QUERY request served from the lookup
    table [tbl] that the data file loads to: without a string [payload.key], or with a
    key that is blank after trimming, the answer is ERROR BAD_REQUEST; with a
    key absent from the table it is ERROR NOT_FOUND; otherwise it is OK with
    [data = {key, value}], the value taken from the table. *)
Theorem file_query_outcomes (req : json) (ty : pystr) (rid : json)
    (payload tbl : dict) (w : world) :
  validated req ty rid payload ->
  normalised_type h ty = u "FILE_QUERY" ->
  load_local_data w = (Ok (JDict tbl), w) ->
  returns (handle_request h req) w (fun r =>
    match dict_get payload (u "key") with
    | Some (JStr key) =>
        if str_eqb (strip key) [] then
          is_error r rid (u "BAD_REQUEST")
            (u "FILE_QUERY requires payload.key (string)")
        else
          match dict_get tbl (strip key) with
          | None =>
              is_error r rid (u "NOT_FOUND")
                (u "Key '" ++ strip key ++ u "' not found")
          | Some value =>
              is_ok r rid [(u "key", JStr (strip key)); (u "value", value)]
          end
    | _ =>
        is_error r rid (u "BAD_REQUEST")
          (u "FILE_QUERY requires payload.key (string)")
    end).
Proof.
  intros Hv Htype Hload.
  destruct (dict_get payload (u "key")) as [[| | | |key| |]|] eqn:Hkey;
    try (enter_file_query Hv Htype; rewrite Hkey; cbv beta iota; answer).
  destruct (str_eqb (strip key) []) eqn:Hblank.
  - enter_file_query Hv Htype. rewrite Hkey.
    cbn [is_str negb py_strip ret]. cbv beta iota. rewrite Hblank. answer.
  - unfold returns.
    rewrite (file_query_lookup req ty rid payload tbl key w Hv Htype Hload
               Hkey (str_eqb_nil _ Hblank)).
    destruct (dict_get tbl (strip key)) as [value|]; answer.
Qed.

(** C10. The FILE_QUERY key is trimmed before the lookup: two validated
    requests whose keys agree after trimming are handled identically, and
    the trimmed key is the one looked up in the table and returned as
    [data.key]. *)
Theorem file_query_key_trimmed (req req' : json) (ty ty' : pystr)
    (rid : json) (payload payload' : dict) (key key' : pystr) (w : world) :
  validated req ty rid payload ->
  validated req' ty' rid payload' ->
  normalised_type h ty = u "FILE_QUERY" ->
  normalised_type h ty' = u "FILE_QUERY" ->
  dict_get payload (u "key") = Some (JStr key) ->
  dict_get payload' (u "key") = Some (JStr key') ->
  strip key = strip key' ->
  handle_request h req w = handle_request h req' w /\
  forall tbl,
    strip key <> [] ->
    load_local_data w = (Ok (JDict tbl), w) ->
    returns (handle_request h req) w (fun r =>
      match dict_get tbl (strip key) with
      | Some value =>
          is_ok r rid [(u "key", JStr (strip key)); (u "value", value)]
      | None =>
          is_error r rid (u "NOT_FOUND")
            (u "Key '" ++ strip key ++ u "' not found")
      end).
Proof.
  intros Hv Hv' Htype Htype' Hkey Hkey' Hstrip. split.
  - destruct Hv as [_ Hty Hrid Hp]. destruct Hv' as [_ Hty' Hrid' Hp'].
    unfold normalised_type in *.
    unfold handle_request, bind, lift.
    rewrite Hty, Hty'. cbn [py_strip]. rewrite Hrid, Hrid', Hp, Hp'.
    rewrite Htype, Htype'.
    unfold lacks_str, py_contains, py_getitem, dict_has.
    rewrite Hkey, Hkey'. cbn [is_str negb py_strip ret].
    now rewrite Hstrip.
  - intros tbl Hnonblank Hload. unfold returns.
    rewrite (file_query_lookup req ty rid payload tbl key w Hv Htype Hload
               Hkey Hnonblank).
    destruct (dict_get tbl (strip key)) as [value|]; answer.
Qed.

End Dispatcher.

(** ** Traces *)

Lemma drift_app (a b : list event) : drift (a ++ b) = drift a + drift b.
Proof.
  induction a as [|e a IH]; [reflexivity|].
  destruct e; cbn [drift app]; rewrite IH; lia.
Qed.

Lemma own_change_app (a b : list event) :
  own_change (a ++ b) = own_change a + own_change b.
Proof.
  induction a as [|e a IH]; [reflexivity|].
  destruct e; cbn [own_change app]; rewrite IH; lia.
Qed.

Lemma counter_writes_app (a b : list event) :
  counter_writes (a ++ b) = (counter_writes a + counter_writes b)%nat.
Proof.
  induction a as [|e a IH]; simpl; [reflexivity|].
  destruct e; rewrite IH; reflexivity.
Qed.

Lemma attempted_app (a b : list event) :
  attempted (a ++ b) = attempted a ++ attempted b.
Proof.
  induction a as [|e a IH]; simpl; [reflexivity|].
  destruct e; rewrite IH; reflexivity.
Qed.

Lemma sent_app (a b : list event) : sent (a ++ b) = sent a ++ sent b.
Proof.
  induction a as [|e a IH]; simpl; [reflexivity|].
  destruct e as [| | | | |r [f|]|]; rewrite IH; reflexivity.
Qed.

Lemma quiet_app (a b : list event) : quiet a -> quiet b -> quiet (a ++ b).
Proof.
  induction 1; intros Hb; simpl; auto using quiet.
Qed.

Lemma quiet_own_change (evs : list event) : quiet evs -> own_change evs = 0.
Proof. induction 1; simpl; auto. Qed.

Lemma quiet_counter_writes (evs : list event) :
  quiet evs -> counter_writes evs = O.
Proof. induction 1; simpl; auto. Qed.

Lemma quiet_disciplined (evs tail : list event) :
  quiet evs -> disciplined false (evs ++ tail) = disciplined false tail.
Proof. induction 1; simpl; auto. Qed.

Lemma quiet_attempted (evs : list event) :
  quiet evs -> forallb shape_ok (attempted evs) = true.
Proof.
  induction 1; simpl; auto.
  now rewrite H, IHquiet.
Qed.

Lemma evolves_refl (w : world) : evolves w w [].
Proof.
  split; simpl; try reflexivity.
  - symmetry. apply app_nil_r.
  - lia.
Qed.

Lemma evolves_trans (w w' w'' : world) (a b : list event) :
  evolves w w' a -> evolves w' w'' b -> evolves w w'' (a ++ b).
Proof.
  intros [L1 C1 F1 X1] [L2 C2 F2 X2]. split.
  - now rewrite L2, L1, app_assoc.
  - rewrite C2, C1, drift_app, own_change_app. lia.
  - congruence.
  - congruence.
Qed.

Lemma evolves_trace {A} (m : M A) (w : world) (evs : list event) :
  evolves w (snd (m w)) evs -> trace_of m w = evs.
Proof.
  intros [L _ _ _]. unfold trace_of. rewrite L.
  rewrite skipn_app, skipn_all, Nat.sub_diag. reflexivity.
Qed.

(** ** Responses have the right shape *)

Lemma shape_ok_error (rid : json) (code message : pystr) :
  shape_ok (make_response rid (u "ERROR") None
              (Some (error_obj code message))) = true.
Proof. reflexivity. Qed.

Lemma shape_ok_data (rid : json) (kv : pystr * json) (data : dict) :
  shape_ok (make_response rid (u "OK") (Some (kv :: data)) None) = true.
Proof. reflexivity. Qed.

(** ** What a session adds to the world *)

Section Session.

Variable h : host.

Lemma py_getitem_ordinary (c : json) (k : pystr) (e : exn) :
  py_getitem c k = Raise e -> ordinary e.
Proof.
  destruct c; cbn; try (intros [= <-]; exact I).
  destruct (dict_get d k); [discriminate|]. intros [= <-]. exact I.
Qed.

Lemma py_contains_ordinary (c : json) (k : pystr) (e : exn) :
  py_contains c k = Raise e -> ordinary e.
Proof. destruct c; cbn; try discriminate; intros [= <-]; exact I. Qed.

Lemma py_strip_ordinary (v : json) (e : exn) :
  py_strip v = Raise e -> ordinary e.
Proof. destruct v; cbn; try discriminate; intros [= <-]; exact I. Qed.

Lemma lacks_str_ordinary (payload : json) (k : pystr) (e : exn) :
  lacks_str payload k = Raise e -> ordinary e.
Proof.
  unfold lacks_str.
  destruct (py_contains payload k) as [[|]|e'] eqn:Hc; try discriminate.
  - destruct (py_getitem payload k) as [v|e'] eqn:Hg; [discriminate|].
    intros [= <-]. eauto using py_getitem_ordinary.
  - intros [= <-]. eauto using py_contains_ordinary.
Qed.

(** A step that leaves the world as it is. *)
Ltac stay :=
  exists []; unfold ret, raise; cbn [fst snd attempted negb];
  split; [apply evolves_refl|];
  split; [apply quiet_nil|];
  split; [reflexivity|];
  split; [reflexivity|];
  first [ exact I
        | solve [eauto using py_getitem_ordinary, py_contains_ordinary,
                   py_strip_ordinary, lacks_str_ordinary]
        | split; [first [apply shape_ok_error | apply shape_ok_data]
                 | eexists; split; reflexivity] ].

Lemma locked_read_run (w : world) :
  exists d v w',
    with_lock read_count w = (Ok v, w') /\
    evolves w w' [Acquire d; ReadCount v; Release] /\
    send_faults w' = send_faults w.
Proof.
  exists (hd 0 (others w)), (active_clients w + hd 0 (others w)).
  eexists. split; [reflexivity|]. split; [|reflexivity].
  split; cbn; try reflexivity.
  - now rewrite <- !app_assoc.
  - lia.
Qed.

(** [handle_request] sends nothing; it may read the counter under the lock;
    what it returns has the right shape and carries the request's id; what
    it raises is an ordinary exception. *)
Lemma handle_request_run (req : json) (w : world) :
  exists evs,
    evolves w (snd (handle_request h req w)) evs /\
    quiet evs /\
    attempted evs = [] /\
    send_faults (snd (handle_request h req w)) = send_faults w /\
    match fst (handle_request h req w) with
    | Ok r =>
        shape_ok r = true /\
        exists rid,
          py_getitem req (u "request_id") = Ok rid /\
          resp_request_id r = Some rid
    | Raise e => ordinary e
    end.
Proof.
  unfold handle_request, bind, lift.
  destruct (py_getitem req (u "type")) as [ty|e] eqn:Hty; [|stay].
  destruct (py_strip ty) as [stripped|e] eqn:Hstrip; [|stay].
  destruct (py_getitem req (u "request_id")) as [rid|e] eqn:Hrid; [|stay].
  destruct (py_getitem req (u "payload")) as [payload|e] eqn:Hp; [|stay].
  destruct (str_eqb _ (u "ECHO")).
  { destruct (lacks_str payload (u "message")) as [[|]|e] eqn:Hbad;
      try stay.
    destruct (py_getitem payload (u "message")) as [m|e] eqn:Hm; stay. }
  destruct (str_eqb _ (u "SYSTEM_INFO")).
  { destruct (locked_read_run w) as (d & v & w' & Hrun & Hev & Hsf).
    rewrite Hrun. unfold now_iso, ret. cbn [fst snd].
    exists [Acquire d; ReadCount v; Release].
    split; [|repeat split; eauto using quiet].
    destruct Hev as [L C F X]. split; cbn [log active_clients data_file
      close_fault]; assumption. }
  destruct (str_eqb _ (u "FILE_QUERY")).
  { destruct (lacks_str payload (u "key")) as [[|]|e] eqn:Hbad; try stay.
    destruct (py_getitem payload (u "key")) as [raw|e] eqn:Hraw; [|stay].
    destruct (py_strip raw) as [key|e] eqn:Hkey; [|stay].
    unfold ret. destruct (str_eqb key []); [stay|].
    unfold load_local_data.
    destruct (data_file w) as [| | |n|data]; try stay;
      match goal with
      | |- context [py_contains ?c key] =>
          destruct (py_contains c key) as [[|]|e] eqn:Hin; try stay;
          destruct (py_getitem c key) as [value|e] eqn:Hval; stay
      end. }
  destruct (str_eqb _ (u "HELP")); stay.
Qed.

Lemma quietly_ret {A} (P : A -> Prop) (a : A) : P a -> quietly P (ret a).
Proof. intros Ha w. exists []. auto using evolves_refl, quiet_nil. Qed.

Lemma quietly_raise {A} (P : A -> Prop) (e : exn) : quietly P (raise e).
Proof. intros w. exists []. cbn. auto using evolves_refl, quiet_nil. Qed.

Lemma quietly_weaken {A} (P Q : A -> Prop) (m : M A) :
  (forall a, P a -> Q a) -> quietly P m -> quietly Q m.
Proof.
  intros HPQ Hm w. destruct (Hm w) as (evs & He & Hq & Hr).
  exists evs. repeat split; try apply He; auto.
  destruct (fst (m w)); auto.
Qed.

Lemma quietly_bind {A B} (P : A -> Prop) (Q : B -> Prop)
    (m : M A) (k : A -> M B) :
  quietly P m -> (forall a, P a -> quietly Q (k a)) -> quietly Q (bind m k).
Proof.
  intros Hm Hk w. unfold bind.
  destruct (Hm w) as (evs & He & Hq & Hr).
  destruct (m w) as [[a|e] w']; cbn [fst snd] in *.
  - destruct (Hk a Hr w') as (evs' & He' & Hq' & Hr').
    exists (evs ++ evs'). eauto using evolves_trans, quiet_app.
  - exists evs. auto.
Qed.

Lemma quietly_try_except {A} (P : A -> Prop) (m : M A) (hnd : exn -> M A) :
  quietly P m -> (forall e, quietly P (hnd e)) -> quietly P (try_except m hnd).
Proof.
  intros Hm Hh w. unfold try_except.
  destruct (Hm w) as (evs & He & Hq & Hr).
  destruct (m w) as [[a|e] w']; cbn [fst snd] in *.
  - exists evs. auto.
  - destruct (Hh e w') as (evs' & He' & Hq' & Hr').
    exists (evs ++ evs'). eauto using evolves_trans, quiet_app.
Qed.

Lemma sendall_run (r : dict) (w : world) :
  evolves w (snd (sendall r w)) [Sendall r (hd None (send_faults w))].
Proof.
  unfold sendall. destruct (hd None (send_faults w)); split; cbn; auto; lia.
Qed.

Lemma quietly_sendall (r : dict) :
  shape_ok r = true -> quietly anything (sendall r).
Proof.
  intros Hr w. exists [Sendall r (hd None (send_faults w))].
  split; [apply sendall_run|]. split; [auto using quiet|].
  now destruct (fst (sendall r w)).
Qed.

Lemma quietly_handle_request (req : json) :
  quietly (fun r => shape_ok r = true) (handle_request h req).
Proof.
  intros w. destruct (handle_request_run req w) as (evs & He & Hq & _ & _ & Hr).
  exists evs. repeat split; try apply He; auto.
  destruct (fst (handle_request h req w)); [apply Hr|exact I].
Qed.

Lemma quietly_body (line : pystr) :
  quietly anything (client_thread_body h line).
Proof.
  unfold client_thread_body.
  destruct (json_loads h line) as [req_obj| |n].
  - destruct (validate_request req_obj) as [[|] msg]; cbn [negb].
    + eapply quietly_bind; [apply quietly_handle_request|].
      intros r Hr. now apply quietly_sendall.
    + apply quietly_sendall, shape_ok_error.
  - apply quietly_sendall, shape_ok_error.
  - apply quietly_raise.
Qed.

Lemma quietly_loop (reads : list read_result) :
  quietly anything (client_thread_loop h reads).
Proof.
  induction reads as [|[line|e] rest IH]; cbn [client_thread_loop].
  - now apply quietly_ret.
  - destruct line as [|c line]; [now apply quietly_ret|].
    destruct (strip (c :: line)); [exact IH|].
    eapply quietly_bind; [apply quietly_body|]. intros _ _. exact IH.
  - apply quietly_raise.
Qed.

Lemma quietly_on_error (ex : exn) : quietly anything (on_error ex).
Proof.
  assert (Hsend : forall msg,
    quietly anything
      (try_except
         (sendall (make_response (JStr []) (u "ERROR") None
                     (Some (error_obj (u "SERVER_ERROR") msg))))
         (fun _ => ret tt))).
  { intros msg. apply quietly_try_except.
    - apply quietly_sendall, shape_ok_error.
    - intros _. now apply quietly_ret. }
  destruct ex; cbn [on_error]; auto. now apply quietly_ret.
Qed.

Lemma quietly_try (reads : list read_result) :
  quietly anything (client_thread_try h reads).
Proof.
  apply quietly_try_except; auto using quietly_loop, quietly_on_error.
Qed.

(** No exception leaves the [try] block. *)
Lemma client_thread_try_returns (reads : list read_result) (w : world) :
  fst (client_thread_try h reads w) = Ok tt.
Proof.
  unfold client_thread_try, try_except.
  destruct (client_thread_loop h reads w) as [[[]|e] w']; [reflexivity|].
  destruct e; cbn [on_error]; unfold try_except, ret; try reflexivity;
    match goal with
    | |- context [sendall ?r w'] => destruct (sendall r w') as [[[]|e'] w'']
    end; reflexivity.
Qed.

(** The [finally] block closes the socket and takes one off the counter,
    under the lock, whatever closing did. *)
Lemma client_thread_finally_run (w : world) :
  exists d w',
    client_thread_finally w = (Ok tt, w') /\
    evolves w w' [Close (close_fault w); Acquire d; Decr; Release] /\
    lock_held w' = false.
Proof.
  unfold client_thread_finally, bind, try_except, conn_close.
  destruct (close_fault w) as [e|] eqn:Hc; eexists; eexists;
    (split; [reflexivity|]); (split; [|reflexivity]);
    split; cbn; rewrite ?Hc; try reflexivity;
    try (now rewrite <- !app_assoc); lia.
Qed.

(** A whole session: one locked increment, a quiet middle, one locked
    decrement; it returns normally and leaves the lock free. *)
Lemma client_thread_run (reads : list read_result) (w : world) :
  exists d0 mid d1 w',
    client_thread h reads w = (Ok tt, w') /\
    evolves w w'
      ([Acquire d0; Incr; Release] ++ mid ++ [Acquire d1; Decr; Release]) /\
    quiet mid /\
    lock_held w' = false.
Proof.
  unfold client_thread, bind, try_finally.
  set (w1 := snd (with_lock (add_count 1 Incr) w)).
  assert (H1 : with_lock (add_count 1 Incr) w = (Ok tt, w1)) by reflexivity.
  assert (E1 : evolves w w1 [Acquire (hd 0 (others w)); Incr; Release]).
  { split; cbn; try reflexivity; [now rewrite <- !app_assoc | lia]. }
  rewrite H1.
  destruct (quietly_try reads w1) as (evs & E2 & Hq & _).
  pose proof (client_thread_try_returns reads w1) as Hok.
  destruct (client_thread_try h reads w1) as [r w2]. cbn [fst snd] in *.
  subst r.
  destruct (client_thread_finally_run w2) as (d1 & w3 & Hfin & E3 & Hfree).
  rewrite Hfin.
  exists (hd 0 (others w)), (evs ++ [Close (close_fault w2)]), d1, w3.
  split; [reflexivity|]. split; [|split; [|exact Hfree]].
  - pose proof (evolves_trans _ _ _ _ _ E1 (evolves_trans _ _ _ _ _ E2 E3))
      as E.
    now rewrite <- !app_assoc in *.
  - apply quiet_app; auto using quiet.
Qed.

(** ** One line of the read loop *)

Lemma strip_nonempty (line : pystr) :
  strip line <> [] -> exists c l, line = c :: l.
Proof.
  destruct line as [|c l]; [intros H; now elim H|]. eauto.
Qed.

(** A non-blank line is handed to the loop body; the session then goes on
    with the next line, or runs the [except] clauses. *)
Lemma try_first_line (line : pystr) (rest : list read_result) (w : world) :
  strip line <> [] ->
  client_thread_try h (Line line :: rest) w =
  match client_thread_body h (strip line) w with
  | (Ok _, w1) => client_thread_try h rest w1
  | (Raise e, w1) => on_error e w1
  end.
Proof.
  intros Hline. destruct (strip_nonempty line Hline) as (c & l & ->).
  unfold client_thread_try, try_except. cbn [client_thread_loop].
  destruct (strip (c :: l)) as [|c' l'] eqn:Hs; [now elim Hline|].
  unfold bind. now destruct (client_thread_body h (c' :: l') w) as [[[]|e] w1].
Qed.

Lemma loop_first_line (line : pystr) (rest : list read_result)
    (w w1 : world) :
  strip line <> [] ->
  client_thread_body h (strip line) w = (Ok tt, w1) ->
  client_thread_loop h (Line line :: rest) w = client_thread_loop h rest w1.
Proof.
  intros Hline Hbody. destruct (strip_nonempty line Hline) as (c & l & ->).
  cbn [client_thread_loop].
  destruct (strip (c :: l)) as [|c' l'] eqn:Hs; [now elim Hline|].
  unfold bind. now rewrite Hbody.
Qed.

Lemma sendall_delivers (r : dict) (w : world) :
  hd None (send_faults w) = None ->
  exists w1, sendall r w = (Ok tt, w1) /\ evolves w w1 [Sendall r None].
Proof.
  intros Hs. pose proof (sendall_run r w) as He. revert He.
  unfold sendall. rewrite Hs. cbn [snd]. eauto.
Qed.

Lemma attempted_none_sent (evs : list event) :
  attempted evs = [] -> sent evs = [].
Proof.
  induction evs as [|e evs IH]; [reflexivity|].
  destruct e; cbn; auto; discriminate.
Qed.

(** With a lookup table to read, the handler answers every validated
    request. *)
Lemma handle_request_total (req : json) (ty : pystr) (rid : json)
    (payload tbl : dict) (w : world) :
  validated req ty rid payload ->
  load_local_data w = (Ok (JDict tbl), w) ->
  exists r, fst (handle_request h req w) = Ok r.
Proof.
  intros [_ Hty Hrid Hp] Hload. unfold handle_request, bind, lift.
  rewrite Hty. cbn [py_strip]. rewrite Hrid, Hp.
  unfold lacks_str, py_contains, py_getitem, dict_has.
  destruct (str_eqb _ (u "ECHO")).
  { destruct (dict_get payload (u "message")) as [[| | | |m| |]|];
      eexists; reflexivity. }
  destruct (str_eqb _ (u "SYSTEM_INFO")); [eexists; reflexivity|].
  destruct (str_eqb _ (u "FILE_QUERY")).
  { destruct (dict_get payload (u "key")) as [[| | | |key| |]|];
      try (eexists; reflexivity).
    cbn [is_str negb py_strip ret]. cbv beta iota.
    destruct (str_eqb (strip key) []); [eexists; reflexivity|].
    rewrite Hload. cbv beta iota.
    destruct (dict_get tbl (strip key)); eexists; reflexivity. }
  destruct (str_eqb _ (u "HELP")); eexists; reflexivity.
Qed.

(** The id the validation-failure branch puts in its reply. *)
Lemma best_effort_id (req_obj : json) :
  (let request_id :=
     match req_obj with
     | JDict d => match dict_get d (u "request_id") with
                  | Some v => v
                  | None => JStr []
                  end
     | _ => JStr []
     end in
   if is_str request_id then request_id else JStr [])
  = JStr (recoverable_id (Loaded req_obj)).
Proof.
  destruct req_obj as [| | | | | |d]; try reflexivity.
  cbv zeta. unfold recoverable_id.
  destruct (dict_get d (u "request_id")) as [[| | | |s| |]|]; reflexivity.
Qed.

(** What the loop body does with a line when the next [sendall] succeeds:
    either it sends one reply, carrying the recoverable id, or it raises
    before sending anything. *)
Lemma body_reply (line : pystr) (w : world) :
  hd None (send_faults w) = None ->
  (exists r evs w1,
     client_thread_body h line w = (Ok tt, w1) /\
     evolves w w1 (evs ++ [Sendall r None]) /\
     sent evs = [] /\
     handler_raises h line w = false /\
     resp_request_id r = Some (JStr (recoverable_id (json_loads h line)))) \/
  (exists e evs w1,
     client_thread_body h line w = (Raise e, w1) /\
     ordinary e /\
     evolves w w1 evs /\
     sent evs = [] /\
     send_faults w1 = send_faults w /\
     (handler_raises h line w = true \/
      recoverable_id (json_loads h line) = [])).
Proof.
  intros Hsend. unfold client_thread_body, handler_raises.
  destruct (json_loads h line) as [req_obj| |n].
  - destruct (validate_request req_obj) as [[|] msg] eqn:Hval;
      cbn [negb fst andb].
    + destruct (handle_request_run req_obj w)
        as (evs & He & _ & Hatt & Hsf & Hres).
      unfold bind.
      destruct (handle_request h req_obj w) as [[r|e] w1];
        cbn [fst snd] in *.
      * left. destruct Hres as (_ & rid & Hrid & Hr).
        destruct (sendall_delivers r w1) as (w2 & Hs2 & He2);
          [congruence|].
        assert (Hid : resp_request_id r
                      = Some (JStr (recoverable_id (Loaded req_obj)))).
        { assert (Hv : fst (validate_request req_obj) = true)
            by now rewrite Hval.
          destruct (validate_request_ok req_obj Hv)
            as (d & ty & s & p & -> & _ & _ & Hs & _ & _).
          unfold py_getitem in Hrid. unfold recoverable_id.
          rewrite Hs in Hrid |- *. congruence. }
        exists r, evs, w2. rewrite Hs2.
        split; [reflexivity|].
        split; [eauto using evolves_trans|].
        split; [auto using attempted_none_sent|].
        split; [reflexivity|exact Hid].
      * right. exists e, evs, w1.
        split; [reflexivity|]. split; [exact Hres|].
        split; [exact He|]. split; [auto using attempted_none_sent|].
        split; [exact Hsf|now left].
    + left. rewrite best_effort_id.
      match goal with
      | |- context [sendall ?r w] =>
          destruct (sendall_delivers r w Hsend) as (w1 & Hs1 & He1);
          exists r, [], w1
      end.
      rewrite Hs1. split; [reflexivity|]. split; [exact He1|].
      repeat split.
  - left.
    match goal with
    | |- context [sendall ?r w] =>
        destruct (sendall_delivers r w Hsend) as (w1 & Hs1 & He1);
        exists r, [], w1
    end.
    rewrite Hs1. split; [reflexivity|]. split; [exact He1|].
    repeat split.
  - right. exists (OtherException n), [], w.
    split; [reflexivity|]. split; [exact I|].
    split; [apply evolves_refl|]. repeat split. now right.
Qed.

Lemma skipn_own_log (a b : list event) : skipn (List.length a) (a ++ b) = b.
Proof.
  rewrite skipn_app, skipn_all, Nat.sub_diag. reflexivity.
Qed.

(** The request id of a reply. Take the next line the session reads,
    non-blank, and let the next [sendall] succeed. The first reply then
    written has as [request_id] the request's own whenever the line decodes
    to a JSON object whose [request_id] is a string (also when validation
    fails) and handling the request raises no exception; it is the empty
    string in every other case. When [load_local_data] returns a table, as
    its signature promises, the handler never raises, and the reply's id is
    the recoverable id of the line. *)
Theorem request_id_correlates (line : pystr) (rest : list read_result)
    (w : world) :
  strip line <> [] ->
  hd None (send_faults w) = None ->
  (exists r more,
     sent (trace_of (client_thread_try h (Line line :: rest)) w) = r :: more /\
     resp_request_id r =
       Some (JStr (if handler_raises h (strip line) w then []
                   else recoverable_id (json_loads h (strip line))))) /\
  (forall tbl,
     load_local_data w = (Ok (JDict tbl), w) ->
     handler_raises h (strip line) w = false).
Proof.
  intros Hline Hsend. split.
  - unfold trace_of. rewrite (try_first_line line rest w Hline).
    destruct (body_reply (strip line) w Hsend)
      as [(r & evs & w1 & Hb & He & Hs & Hnr & Hid)
         |(e & evs & w1 & Hb & Hord & He & Hs & Hsf & Hcase)]; rewrite Hb.
    + destruct (quietly_try rest w1) as (evs2 & He2 & _ & _).
      destruct (evolves_trans _ _ _ _ _ He He2) as [L _ _ _].
      rewrite L, skipn_own_log, !sent_app, Hs. cbn [sent app].
      exists r, (sent evs2). split; [reflexivity|]. now rewrite Hnr.
    + destruct e as [| |n]; try contradiction. cbn [on_error].
      unfold try_except.
      match goal with
      | |- context [sendall ?r w1] =>
          destruct (sendall_delivers r w1) as (w2 & Hs2 & He2);
          [congruence|]; exists r, []
      end.
      rewrite Hs2. cbn [snd].
      destruct (evolves_trans _ _ _ _ _ He He2) as [L _ _ _].
      rewrite L, skipn_own_log, sent_app, Hs. split; [reflexivity|].
      destruct Hcase as [-> | ->]; [reflexivity|].
      now destruct (handler_raises h (strip line) w).
  - intros tbl Hload. unfold handler_raises.
    destruct (json_loads h (strip line)) as [req| |]; try reflexivity.
    destruct (fst (validate_request req)) eqn:Hv; [|reflexivity].
    destruct (validated_intro req Hv) as (ty & rid & p & Hvd).
    destruct (handle_request_total req ty (JStr rid) p tbl w Hvd Hload)
      as (r & ->).
    reflexivity.
Qed.

(** C2, amended. A line that decodes to a JSON value that is not an object
    is not a decode failure: it fails validation, and the session writes a
    BAD_REQUEST error response (message: Request must be a JSON object) with
    empty [request_id], then reads the next line; the connection stays
    open. *)
Theorem non_object_is_bad_request (line : pystr) (rest : list read_result)
    (v : json) (w : world) :
  strip line <> [] ->
  json_loads h (strip line) = Loaded v ->
  is_dict v = false ->
  hd None (send_faults w) = None ->
  exists r w1,
    client_thread_body h (strip line) w = (Ok tt, w1) /\
    trace_of (client_thread_body h (strip line)) w = [Sendall r None] /\
    is_error r (JStr []) (u "BAD_REQUEST") (u "Request must be a JSON object") /\
    client_thread_loop h (Line line :: rest) w = client_thread_loop h rest w1.
Proof.
  intros Hline Hload Hv Hsend.
  assert (Hbody : exists r w1,
    client_thread_body h (strip line) w = (Ok tt, w1) /\
    evolves w w1 [Sendall r None] /\
    is_error r (JStr []) (u "BAD_REQUEST") (u "Request must be a JSON object")).
  { unfold client_thread_body. rewrite Hload.
    destruct v; try discriminate; cbn [validate_request negb is_str];
      match goal with
      | |- context [sendall ?r w] =>
          destruct (sendall_delivers r w Hsend) as (w1 & Hs1 & He1);
          exists r, w1
      end; (split; [exact Hs1|]); (split; [exact He1|]); repeat split. }
  destruct Hbody as (r & w1 & Hb & He & Hr). exists r, w1.
  split; [exact Hb|]. split; [|split; [exact Hr|]].
  - apply evolves_trace. now rewrite Hb.
  - now apply loop_first_line.
Qed.

(** C9. A line that is blank after stripping is skipped: the loop goes on to
    the next line from the same world, nothing is sent, and the session as a
    whole runs as if the line had not been there. *)
Theorem blank_line_skipped (line : pystr) (rest : list read_result)
    (w : world) :
  line <> [] ->
  strip line = [] ->
  client_thread_loop h (Line line :: rest) w = client_thread_loop h rest w /\
  client_thread h (Line line :: rest) w = client_thread h rest w.
Proof.
  intros Hne Hblank.
  assert (Hloop : client_thread_loop h (Line line :: rest)
                  = client_thread_loop h rest).
  { destruct line as [|c l]; [now elim Hne|].
    cbn [client_thread_loop]. now rewrite Hblank. }
  unfold client_thread, client_thread_try. now rewrite Hloop.
Qed.

(** C7. Every response the server hands to [sendall] in a session, and
    every response [handle_request] returns, has the response shape: [data]
    is an object; [error] is null exactly when the status is OK; with OK the
    data is the non-empty payload, with ERROR the data is empty and [error]
    is an object of a string [code] and a string [message]. *)
Theorem responses_well_shaped (reads : list read_result) (req : json)
    (w : world) :
  forallb shape_ok (attempted (trace_of (client_thread h reads) w)) = true /\
  match fst (handle_request h req w) with
  | Ok r => shape_ok r = true
  | Raise _ => True
  end.
Proof.
  split.
  - destruct (client_thread_run reads w)
      as (d0 & mid & d1 & w' & Hrun & He & Hq & _).
    rewrite (evolves_trace (client_thread h reads) w _)
      by (rewrite Hrun; exact He).
    rewrite !attempted_app. cbn [attempted app]. rewrite app_nil_r.
    now apply quiet_attempted.
  - destruct (handle_request_run req w) as (_ & _ & _ & _ & _ & Hres).
    destruct (fst (handle_request h req w)); [apply Hres|exact I].
Qed.

End Session.

(** * The theorems at concrete requests *)

Lemma echo_round_trip_witness :
  validated (sample_request " echo " [(u "message", JStr sample_message)])
    (u " echo ") (JStr (u "r1")) [(u "message", JStr sample_message)] /\
  normalised_type sample_host (u " echo ") = u "ECHO" /\
  returns
    (handle_request sample_host
       (sample_request " echo " [(u "message", JStr sample_message)]))
    (idle_world FileMissing)
    (fun r => is_ok r (JStr (u "r1")) [(u "echo", JStr sample_message)]).
Proof.
  assert (Hv : validated
            (sample_request " echo " [(u "message", JStr sample_message)])
            (u " echo ") (JStr (u "r1")) [(u "message", JStr sample_message)])
    by (split; reflexivity).
  assert (Ht : normalised_type sample_host (u " echo ") = u "ECHO")
    by reflexivity.
  split; [exact Hv|]. split; [exact Ht|].
  exact (echo_round_trip sample_host _ _ _ _ (idle_world FileMissing) Hv Ht).
Defined.

Lemma help_lists_supported_types_witness :
  validated (sample_request "help" []) (u "help") (JStr (u "r1")) [] /\
  normalised_type sample_host (u "help") = u "HELP" /\
  returns (handle_request sample_host (sample_request "help" []))
    (idle_world FileMissing)
    (fun r =>
       is_ok r (JStr (u "r1"))
         [ (u "supported_types",
            JList [ JStr (u "ECHO"); JStr (u "SYSTEM_INFO");
                    JStr (u "FILE_QUERY"); JStr (u "HELP") ]) ]).
Proof.
  assert (Hv : validated (sample_request "help" []) (u "help")
                 (JStr (u "r1")) []) by (split; reflexivity).
  assert (Ht : normalised_type sample_host (u "help") = u "HELP")
    by reflexivity.
  split; [exact Hv|]. split; [exact Ht|].
  exact (help_lists_supported_types sample_host _ _ _ _
           (idle_world FileMissing) Hv Ht).
Defined.

Lemma unknown_type_echoes_normalised_witness :
  validated (sample_request "ping" []) (u "ping") (JStr (u "r1")) [] /\
  returns (handle_request sample_host (sample_request "ping" []))
    (idle_world FileMissing)
    (fun r =>
       is_error r (JStr (u "r1")) (u "UNKNOWN_TYPE")
         (u "Unknown request type: PING")).
Proof.
  assert (Hv : validated (sample_request "ping" []) (u "ping")
                 (JStr (u "r1")) []) by (split; reflexivity).
  split; [exact Hv|].
  refine (unknown_type_echoes_normalised sample_host _ _ _ _
            (idle_world FileMissing) Hv _ _ _ _);
    intros H; vm_compute in H; discriminate H.
Defined.

(** C3 as stated fails: for the type [ping] the message carries [PING]; the
    string the client sent does not occur in it. *)
Lemma unknown_type_not_verbatim :
  validated (sample_request "ping" []) (u "ping") (JStr (u "r1")) [] /\
  exists r m,
    handle_request sample_host (sample_request "ping" [])
      (idle_world FileMissing) = (Ok r, idle_world FileMissing) /\
    error_code r = Some (JStr (u "UNKNOWN_TYPE")) /\
    error_message r = Some (JStr m) /\
    m = u "Unknown request type: PING" /\
    m <> u "Unknown request type: ping" /\
    str_contains m (u "ping") = false.
Proof.
  split; [split; reflexivity|].
  eexists. eexists. split; [reflexivity|].
  split; [reflexivity|]. split; [reflexivity|]. split; [reflexivity|].
  split; [discriminate|reflexivity].
Qed.

Lemma file_query_outcomes_witness :
  validated (sample_request "FILE_QUERY" [(u "key", JStr (u "foo"))])
    (u "FILE_QUERY") (JStr (u "r1")) [(u "key", JStr (u "foo"))] /\
  normalised_type sample_host (u "FILE_QUERY") = u "FILE_QUERY" /\
  load_local_data (idle_world (FileJson (JDict sample_table)))
  = (Ok (JDict sample_table), idle_world (FileJson (JDict sample_table))) /\
  returns
    (handle_request sample_host
       (sample_request "FILE_QUERY" [(u "key", JStr (u "foo"))]))
    (idle_world (FileJson (JDict sample_table)))
    (fun r =>
       is_ok r (JStr (u "r1")) [(u "key", JStr (u "foo")); (u "value", JInt 5)]).
Proof.
  assert (Hv : validated
            (sample_request "FILE_QUERY" [(u "key", JStr (u "foo"))])
            (u "FILE_QUERY") (JStr (u "r1")) [(u "key", JStr (u "foo"))])
    by (split; reflexivity).
  assert (Ht : normalised_type sample_host (u "FILE_QUERY") = u "FILE_QUERY")
    by reflexivity.
  assert (Hl : load_local_data (idle_world (FileJson (JDict sample_table)))
               = (Ok (JDict sample_table),
                  idle_world (FileJson (JDict sample_table))))
    by reflexivity.
  split; [exact Hv|]. split; [exact Ht|]. split; [exact Hl|].
  exact (file_query_outcomes sample_host _ _ _ _ _ _ Hv Ht Hl).
Defined.

Lemma file_query_key_trimmed_witness :
  strip (u " foo ") = strip (u "foo") /\
  handle_request sample_host
    (sample_request "file_query" [(u "key", JStr (u " foo "))])
    (idle_world (FileJson (JDict sample_table)))
  = handle_request sample_host
      (sample_request "file_query" [(u "key", JStr (u "foo"))])
      (idle_world (FileJson (JDict sample_table))) /\
  returns
    (handle_request sample_host
       (sample_request "file_query" [(u "key", JStr (u " foo "))]))
    (idle_world (FileJson (JDict sample_table)))
    (fun r =>
       is_ok r (JStr (u "r1")) [(u "key", JStr (u "foo")); (u "value", JInt 5)]).
Proof.
  assert (Hv : forall k,
            validated (sample_request "file_query" [(u "key", JStr k)])
              (u "file_query") (JStr (u "r1")) [(u "key", JStr k)])
    by (intros k; split; reflexivity).
  assert (Ht : normalised_type sample_host (u "file_query") = u "FILE_QUERY")
    by reflexivity.
  assert (Hs : strip (u " foo ") = strip (u "foo")) by reflexivity.
  destruct (file_query_key_trimmed sample_host _ _ _ _ _ _ _ (u " foo ")
              (u "foo") (idle_world (FileJson (JDict sample_table)))
              (Hv (u " foo ")) (Hv (u "foo")) Ht Ht eq_refl eq_refl Hs)
    as [Hsame Hlook].
  split; [exact Hs|]. split; [exact Hsame|].
  apply (Hlook sample_table); [|reflexivity].
  intros H; vm_compute in H; discriminate H.
Defined.

Lemma request_id_correlates_witness :
  strip (wire_line "{'type':'nope','request_id':'r7','payload':3}") <> [] /\
  hd None (send_faults (idle_world FileMissing)) = None /\
  recoverable_id
    (json_loads sample_host
       (strip (wire_line "{'type':'nope','request_id':'r7','payload':3}")))
  = u "r7" /\
  (exists r more,
     sent (trace_of
             (client_thread_try sample_host
                [Line (wire_line
                         "{'type':'nope','request_id':'r7','payload':3}")])
             (idle_world FileMissing)) = r :: more /\
     resp_request_id r = Some (JStr (u "r7"))).
Proof.
  assert (Hline : strip (wire_line
            "{'type':'nope','request_id':'r7','payload':3}") <> [])
    by (intros H; vm_compute in H; discriminate H).
  assert (Hsend : hd None (send_faults (idle_world FileMissing)) = None)
    by reflexivity.
  split; [exact Hline|]. split; [exact Hsend|]. split; [reflexivity|].
  exact (proj1 (request_id_correlates sample_host _ [] _ Hline Hsend)).
Defined.

(** C1. The code at a data file that holds the JSON array [["k"]]:
    [load_local_data] returns the array, not a dict; a FILE_QUERY for [k]
    whose [request_id] is the string [r1] makes [handle_request] raise
    TypeError instead of returning a response; the session's reply is
    SERVER_ERROR with an empty [request_id], not [r1]. *)
Lemma faulting_handler_drops_request_id :
  load_local_data (idle_world (FileJson (JList [JStr (u "k")])))
  = (Ok (JList [JStr (u "k")]), idle_world (FileJson (JList [JStr (u "k")]))) /\
  json_loads sample_host (strip query_k_line)
  = Loaded (sample_request "FILE_QUERY" [(u "key", JStr (u "k"))]) /\
  recoverable_id (json_loads sample_host (strip query_k_line)) = u "r1" /\
  fst (handle_request sample_host
         (sample_request "FILE_QUERY" [(u "key", JStr (u "k"))])
         (idle_world (FileJson (JList [JStr (u "k")]))))
  = Raise TypeError /\
  exists r,
    sent (trace_of (client_thread_try sample_host [Line query_k_line])
            (idle_world (FileJson (JList [JStr (u "k")])))) = [r] /\
    resp_request_id r = Some (JStr []) /\
    error_code r = Some (JStr (u "SERVER_ERROR")) /\
    resp_request_id r <> Some (JStr (u "r1")).
Proof.
  split; [reflexivity|].
  split; [reflexivity|]. split; [reflexivity|]. split; [reflexivity|].
  eexists. split; [reflexivity|].
  split; [reflexivity|]. split; [reflexivity|]. discriminate.
Qed.

(** C4. The code at the same data file, and at one that is not UTF-8: a
    validated FILE_QUERY with the usable key [k], which the array contains,
    gets none of the three outcomes. [handle_request] raises TypeError (in
    the second case the UnicodeDecodeError of the loader) and returns no
    response, and the reply the session sends is an ERROR with code
    SERVER_ERROR: neither BAD_REQUEST, nor NOT_FOUND, nor OK. *)
Lemma file_query_bad_data_file_no_outcome :
  validated (sample_request "FILE_QUERY" [(u "key", JStr (u "k"))])
    (u "FILE_QUERY") (JStr (u "r1")) [(u "key", JStr (u "k"))] /\
  normalised_type sample_host (u "FILE_QUERY") = u "FILE_QUERY" /\
  handle_request sample_host
    (sample_request "FILE_QUERY" [(u "key", JStr (u "k"))])
    (idle_world (FileJson (JList [JStr (u "k")])))
  = (Raise TypeError, idle_world (FileJson (JList [JStr (u "k")]))) /\
  handle_request sample_host
    (sample_request "FILE_QUERY" [(u "key", JStr (u "k"))])
    (idle_world (FileCrash (u "UnicodeDecodeError")))
  = (Raise (OtherException (u "UnicodeDecodeError")),
     idle_world (FileCrash (u "UnicodeDecodeError"))) /\
  exists r,
    sent (trace_of (client_thread_try sample_host [Line query_k_line])
            (idle_world (FileJson (JList [JStr (u "k")])))) = [r] /\
    resp_status r = Some (JStr (u "ERROR")) /\
    error_code r = Some (JStr (u "SERVER_ERROR")) /\
    error_code r <> Some (JStr (u "BAD_REQUEST")) /\
    error_code r <> Some (JStr (u "NOT_FOUND")).
Proof.
  split; [split; reflexivity|].
  split; [reflexivity|]. split; [reflexivity|]. split; [reflexivity|].
  eexists. split; [reflexivity|].
  split; [reflexivity|]. split; [reflexivity|]. split; discriminate.
Qed.

Lemma non_object_is_bad_request_witness :
  strip (wire_line "42") <> [] /\
  json_loads sample_host (strip (wire_line "42")) = Loaded (JInt 42) /\
  is_dict (JInt 42) = false /\
  hd None (send_faults (idle_world FileMissing)) = None /\
  exists r w1,
    client_thread_body sample_host (strip (wire_line "42"))
      (idle_world FileMissing) = (Ok tt, w1) /\
    trace_of (client_thread_body sample_host (strip (wire_line "42")))
      (idle_world FileMissing) = [Sendall r None] /\
    is_error r (JStr []) (u "BAD_REQUEST") (u "Request must be a JSON object") /\
    client_thread_loop sample_host [Line (wire_line "42")]
      (idle_world FileMissing)
    = client_thread_loop sample_host [] w1.
Proof.
  assert (Hline : strip (wire_line "42") <> [])
    by (intros H; vm_compute in H; discriminate H).
  assert (Hload : json_loads sample_host (strip (wire_line "42"))
                  = Loaded (JInt 42)) by reflexivity.
  split; [exact Hline|]. split; [exact Hload|].
  split; [reflexivity|]. split; [reflexivity|].
  exact (non_object_is_bad_request sample_host _ [] _
           (idle_world FileMissing) Hline Hload eq_refl eq_refl).
Defined.

(** C2 as stated fails: the line [42] decodes to a number, and the reply is
    a BAD_REQUEST error, not an INVALID_JSON one. *)
Lemma bare_number_is_not_invalid_json :
  json_loads sample_host (strip (wire_line "42")) = Loaded (JInt 42) /\
  exists r,
    trace_of (client_thread_loop sample_host [Line (wire_line "42")])
      (idle_world FileMissing) = [Sendall r None] /\
    error_code r = Some (JStr (u "BAD_REQUEST")) /\
    error_code r <> Some (JStr (u "INVALID_JSON")).
Proof.
  split; [reflexivity|]. eexists. split; [reflexivity|].
  split; [reflexivity|discriminate].
Qed.

Lemma blank_line_skipped_witness :
  u "  " ++ [10%N] <> [] /\
  strip (u "  " ++ [10%N]) = [] /\
  client_thread_loop sample_host [Line (u "  " ++ [10%N]); Line (wire_line "42")]
    (idle_world FileMissing)
  = client_thread_loop sample_host [Line (wire_line "42")]
      (idle_world FileMissing) /\
  client_thread sample_host [Line (u "  " ++ [10%N]); Line (wire_line "42")]
    (idle_world FileMissing)
  = client_thread sample_host [Line (wire_line "42")] (idle_world FileMissing).
Proof.
  assert (Hne : u "  " ++ [10%N] <> []) by discriminate.
  assert (Hblank : strip (u "  " ++ [10%N]) = []) by reflexivity.
  split; [exact Hne|]. split; [exact Hblank|].
  exact (blank_line_skipped sample_host _ _ _ Hne Hblank).
Defined.

(** * Further properties of the server *)

(** ** Validation *)

Lemma usable_str_spec (d : dict) (k : pystr) :
  usable_str d k = true <->
  exists s, dict_get d k = Some (JStr s) /\ strip s <> [].
Proof.
  unfold usable_str. split.
  - destruct (dict_get d k) as [[| | | |s| |]|]; try discriminate.
    destruct (str_eqb (strip s) []) eqn:E; [discriminate|].
    intros _. exists s. auto using str_eqb_nil.
  - intros (s & -> & Hs). now rewrite (str_eqb_neq _ _ Hs).
Qed.

(** X1. [validate_request] accepts exactly the JSON objects that have a
    non-blank string [type], a non-blank string [request_id] and an object
    [payload]; acceptance comes with the empty message. *)
Theorem validate_request_accepts (obj : json) :
  validate_request obj = (true, []) <->
  exists d ty rid p,
    obj = JDict d /\
    dict_get d (u "type") = Some (JStr ty) /\ strip ty <> [] /\
    dict_get d (u "request_id") = Some (JStr rid) /\ strip rid <> [] /\
    dict_get d (u "payload") = Some (JDict p).
Proof.
  split.
  - intros H. apply validate_request_ok. now rewrite H.
  - intros (d & ty & rid & p & -> & Hty & Hsty & Hrid & Hsrid & Hp).
    unfold validate_request, dict_has.
    rewrite Hty, Hrid, Hp.
    now rewrite (str_eqb_neq _ _ Hsty), (str_eqb_neq _ _ Hsrid).
Qed.

(** X2. A rejected object is told about the first field that is wrong, in
    the order type, request_id, payload: a bad [type] hides what is wrong
    with the other two, and a bad [request_id] hides a bad [payload]. *)
Theorem validate_request_first_failure (d : dict) :
  (usable_str d (u "type") = false ->
   validate_request (JDict d) = (false, u "Missing or invalid 'type' field")) /\
  (usable_str d (u "type") = true ->
   usable_str d (u "request_id") = false ->
   validate_request (JDict d)
   = (false, u "Missing or invalid 'request_id' field")) /\
  (usable_str d (u "type") = true ->
   usable_str d (u "request_id") = true ->
   (forall p, dict_get d (u "payload") <> Some (JDict p)) ->
   validate_request (JDict d)
   = (false, u "Missing or invalid 'payload' field (must be an object)")).
Proof.
  unfold usable_str, validate_request, dict_has.
  destruct (dict_get d (u "type")) as [[| | | |ty| |]|];
    try (split; [reflexivity|split; discriminate]).
  destruct (str_eqb (strip ty) []);
    [split; [reflexivity|split; discriminate]|].
  split; [discriminate|]. cbn [negb orb].
  destruct (dict_get d (u "request_id")) as [[| | | |rid| |]|];
    try (split; [reflexivity|intros _; discriminate]).
  destruct (str_eqb (strip rid) []);
    [split; [reflexivity|intros _; discriminate]|].
  split; [discriminate|]. intros _ _ Hp. cbn [negb orb].
  destruct (dict_get d (u "payload")) as [[| | | | | |p]|]; try reflexivity.
  now elim (Hp p).
Qed.

(** ** More of the dispatcher *)

Section DispatcherMore.

Variable h : host.

Ltac open_request Hv :=
  destruct Hv as [_ Hty Hrid Hp];
  unfold handle_request, bind, lift;
  rewrite Hty; cbn [py_strip]; rewrite Hrid, Hp;
  unfold normalised_type in *.

Ltac file_query_branch Hv Htype :=
  open_request Hv; rewrite Htype;
  change (str_eqb (u "FILE_QUERY") (u "ECHO")) with false;
  change (str_eqb (u "FILE_QUERY") (u "SYSTEM_INFO")) with false;
  change (str_eqb (u "FILE_QUERY") (u "FILE_QUERY")) with true;
  cbv iota;
  unfold lacks_str, py_contains, py_getitem, dict_has.

(** The SYSTEM_INFO branch, step by step. *)
Lemma system_info_run (req : json) (ty : pystr) (rid : json)
    (payload : dict) (w : world) :
  validated req ty rid payload ->
  normalised_type h ty = u "SYSTEM_INFO" ->
  exists w',
    handle_request h req w
    = (Ok (make_response rid (u "OK")
             (Some [ (u "server_name", JStr SERVER_NAME);
                     (u "server_time", JStr (clock h (ticks w)));
                     (u "active_clients",
                      JInt (active_clients w + hd 0 (others w)));
                     (u "platform", JStr (platform_platform h)) ])
             None), w') /\
    log w' = log w ++ [ Acquire (hd 0 (others w));
                        ReadCount (active_clients w + hd 0 (others w));
                        Release ] /\
    active_clients w' = active_clients w + hd 0 (others w) /\
    lock_held w' = false /\
    ticks w' = S (ticks w) /\
    send_faults w' = send_faults w /\
    data_file w' = data_file w.
Proof.
  intros Hv Htype. open_request Hv. rewrite Htype.
  change (str_eqb (u "SYSTEM_INFO") (u "ECHO")) with false.
  change (str_eqb (u "SYSTEM_INFO") (u "SYSTEM_INFO")) with true.
  cbv iota. eexists. split; [reflexivity|].
  cbn [log active_clients lock_held ticks send_faults data_file emit].
  repeat split. now rewrite <- !app_assoc.
Qed.

(** X3. A validated SYSTEM_INFO request is answered OK with the server
    name, the current clock reading, the platform string, and as
    [active_clients] the value the counter has when the lock is obtained
    (its previous value plus what other sessions did meanwhile). Handling it
    takes and releases the lock around one read of the counter, reads the
    clock once, and sends nothing. *)
Theorem system_info_reports (req : json) (ty : pystr) (rid : json)
    (payload : dict) (w : world) :
  validated req ty rid payload ->
  normalised_type h ty = u "SYSTEM_INFO" ->
  exists r w',
    handle_request h req w = (Ok r, w') /\
    is_ok r rid
      [ (u "server_name", JStr (u "Tinashe-NetServer"));
        (u "server_time", JStr (clock h (ticks w)));
        (u "active_clients", JInt (active_clients w + hd 0 (others w)));
        (u "platform", JStr (platform_platform h)) ] /\
    trace_of (handle_request h req) w
    = [ Acquire (hd 0 (others w));
        ReadCount (active_clients w + hd 0 (others w));
        Release ] /\
    active_clients w' = active_clients w + hd 0 (others w) /\
    lock_held w' = false /\
    ticks w' = S (ticks w) /\
    send_faults w' = send_faults w /\
    data_file w' = data_file w.
Proof.
  intros Hv Htype.
  destruct (system_info_run req ty rid payload w Hv Htype)
    as (w' & Hr & Hlog & Hrest).
  eexists. exists w'. split; [exact Hr|].
  split; [repeat split|]. split; [|exact Hrest].
  unfold trace_of. rewrite Hr. cbn [snd]. rewrite Hlog.
  apply skipn_own_log.
Qed.

(** X4. [handle_request] reads a validated request only through its
    normalised type, its [request_id] and its [payload]: two validated
    requests that agree on these are handled identically in every world,
    whatever the case or surrounding whitespace of the type and whatever
    other keys the objects carry. *)
Theorem handle_request_reads_three_fields (req req' : json) (ty ty' : pystr)
    (rid : json) (payload : dict) (w : world) :
  validated req ty rid payload ->
  validated req' ty' rid payload ->
  normalised_type h ty = normalised_type h ty' ->
  handle_request h req w = handle_request h req' w.
Proof.
  intros [_ Hty Hrid Hp] [_ Hty' Hrid' Hp'] Hsame.
  unfold normalised_type in Hsame.
  unfold handle_request, bind, lift.
  rewrite Hty, Hty'. cbn [py_strip]. rewrite Hrid, Hrid', Hp, Hp', Hsame.
  reflexivity.
Qed.

(** X5. On a validated request [handle_request] raises only in the
    FILE_QUERY branch, with a usable key, when the data file does not load
    to a JSON object; what it raises is an ordinary exception, and the world
    is left as it was. *)
Theorem handle_request_raises_only_on_bad_data (req : json) (ty : pystr)
    (rid : json) (payload : dict) (e : exn) (w : world) :
  validated req ty rid payload ->
  fst (handle_request h req w) = Raise e ->
  normalised_type h ty = u "FILE_QUERY" /\
  (exists key, dict_get payload (u "key") = Some (JStr key) /\
               strip key <> []) /\
  (forall tbl, load_local_data w <> (Ok (JDict tbl), w)) /\
  ordinary e /\
  snd (handle_request h req w) = w.
Proof.
  intros Hv. open_request Hv.
  unfold lacks_str, py_contains, py_getitem, dict_has.
  destruct (str_eqb _ (u "ECHO")) eqn:E1.
  { destruct (dict_get payload (u "message")) as [[| | | |m| |]|];
      discriminate. }
  destruct (str_eqb _ (u "SYSTEM_INFO")) eqn:E2; [discriminate|].
  destruct (str_eqb _ (u "FILE_QUERY")) eqn:E3.
  2:{ destruct (str_eqb _ (u "HELP")); discriminate. }
  apply str_eqb_eq in E3.
  destruct (dict_get payload (u "key")) as [[| | | |key| |]|] eqn:Hkey;
    try discriminate.
  cbn [is_str negb py_strip ret]. cbv beta iota.
  destruct (str_eqb (strip key) []) eqn:Hblank; [discriminate|].
  unfold load_local_data.
  assert (Hk : exists key0, Some (JStr key) = Some (JStr key0)
                            /\ strip key0 <> [])
    by (exists key; auto using str_eqb_nil).
  destruct (data_file w) as [| | |n|data] eqn:Hfile;
    try (cbn; discriminate).
  - intros [= <-]. repeat split; auto. discriminate.
  - destruct data as [| | | | |l|tbl];
      try (intros [= <-]; repeat split; auto; discriminate).
    + cbn [py_contains py_getitem].
      destruct (str_contains s (strip key)); cbn [negb]; [|discriminate].
      intros [= <-]. repeat split; auto. discriminate.
    + cbn [py_contains py_getitem].
      destruct (existsb _ l); cbn [negb]; [|discriminate].
      intros [= <-]. repeat split; auto. discriminate.
    + cbn [py_contains py_getitem dict_has].
      destruct (dict_get tbl (strip key)); cbn [negb]; discriminate.
Qed.

(** X6. FILE_QUERY against a data file that gives no table. When the file
    is missing, when opening or reading it raises OSError, or when
    [json.load] raises JSONDecodeError on it, [load_local_data] returns the
    empty dict and every usable key is answered ERROR NOT_FOUND, naming the
    trimmed key. When reading the file raises any other exception, such as
    UnicodeDecodeError for a file that is not UTF-8, [load_local_data] does
    not catch it and it leaves [handle_request]. *)
Theorem file_query_without_data (req : json) (ty : pystr) (rid : json)
    (payload : dict) (key : pystr) (w : world) :
  validated req ty rid payload ->
  normalised_type h ty = u "FILE_QUERY" ->
  dict_get payload (u "key") = Some (JStr key) ->
  strip key <> [] ->
  (data_file w = FileMissing \/ data_file w = FileUnreadable \/
     data_file w = FileNotJson ->
   load_local_data w = (Ok (JDict []), w) /\
   returns (handle_request h req) w (fun r =>
     is_error r rid (u "NOT_FOUND")
       (u "Key '" ++ strip key ++ u "' not found"))) /\
  (forall n,
     data_file w = FileCrash n ->
     load_local_data w = (Raise (OtherException n), w) /\
     handle_request h req w = (Raise (OtherException n), w)).
Proof.
  intros Hv Htype Hkey Hnonblank. split.
  - intros Hfile.
    assert (Hload : load_local_data w = (Ok (JDict []), w)).
    { unfold load_local_data.
      destruct Hfile as [-> | [-> | ->]]; reflexivity. }
    split; [exact Hload|]. unfold returns.
    rewrite (file_query_lookup h req ty rid payload [] key w Hv Htype Hload
               Hkey Hnonblank).
    cbn [dict_get]. eexists. split; [reflexivity|]. repeat split.
  - intros n Hfile.
    assert (Hload : load_local_data w = (Raise (OtherException n), w))
      by (unfold load_local_data; now rewrite Hfile).
    split; [exact Hload|].
    file_query_branch Hv Htype. rewrite Hkey.
    cbn [is_str negb py_strip ret]. cbv beta iota.
    now rewrite (str_eqb_neq _ _ Hnonblank), Hload.
Qed.

Lemma existsb_is_str (k : pystr) (l : list json) :
  existsb (fun v => match v with
                    | JStr s => str_eqb k s
                    | _ => false
                    end) l = true <-> In (JStr k) l.
Proof.
  rewrite existsb_exists. split.
  - intros (v & Hin & Hv). destruct v; try discriminate.
    apply str_eqb_eq in Hv. now subst.
  - intros Hin. exists (JStr k). split; [exact Hin|apply str_eqb_refl].
Qed.

(** X7. FILE_QUERY when the data file holds a JSON array instead of an
    object: a usable key that is not an element of the array is answered
    ERROR NOT_FOUND, and one that is an element makes [handle_request] raise
    TypeError (the array cannot be indexed by a string). *)
Theorem file_query_against_array (req : json) (ty : pystr) (rid : json)
    (payload : dict) (key : pystr) (l : list json) (w : world) :
  validated req ty rid payload ->
  normalised_type h ty = u "FILE_QUERY" ->
  dict_get payload (u "key") = Some (JStr key) ->
  strip key <> [] ->
  data_file w = FileJson (JList l) ->
  (In (JStr (strip key)) l ->
   handle_request h req w = (Raise TypeError, w)) /\
  (~ In (JStr (strip key)) l ->
   returns (handle_request h req) w (fun r =>
     is_error r rid (u "NOT_FOUND")
       (u "Key '" ++ strip key ++ u "' not found"))).
Proof.
  intros Hv Htype Hkey Hnonblank Hfile.
  assert (Hrun : handle_request h req w =
    if existsb (fun v => match v with
                         | JStr s => str_eqb (strip key) s
                         | _ => false
                         end) l
    then (Raise TypeError, w)
    else (Ok (make_response rid (u "ERROR") None
                (Some (error_obj (u "NOT_FOUND")
                         (u "Key '" ++ strip key ++ u "' not found")))), w)).
  { file_query_branch Hv Htype. rewrite Hkey.
    cbn [is_str negb py_strip ret]. cbv beta iota.
    rewrite (str_eqb_neq _ _ Hnonblank).
    unfold load_local_data. rewrite Hfile. cbv beta iota.
    now destruct (existsb _ l). }
  unfold returns. rewrite Hrun. split; intros Hin.
  - apply existsb_is_str in Hin. now rewrite Hin.
  - destruct (existsb _ l) eqn:E; [apply existsb_is_str in E; contradiction|].
    eexists. split; [reflexivity|]. repeat split.
Qed.

(** X18. Only SYSTEM_INFO touches the world: handling a validated request
    of any other type, known or unknown, answered or raising, leaves the
    world exactly as it was: no lock taken, no counter access, no clock
    reading, nothing sent. *)
Theorem handle_request_pure_unless_system_info (req : json) (ty : pystr)
    (rid : json) (payload : dict) (w : world) :
  validated req ty rid payload ->
  normalised_type h ty <> u "SYSTEM_INFO" ->
  snd (handle_request h req w) = w.
Proof.
  intros Hv Hnot. open_request Hv.
  unfold lacks_str, py_contains, py_getitem, dict_has.
  destruct (str_eqb _ (u "ECHO")).
  { destruct (dict_get payload (u "message")) as [[| | | |m| |]|];
      reflexivity. }
  rewrite (str_eqb_neq _ _ Hnot).
  destruct (str_eqb _ (u "FILE_QUERY")).
  2:{ destruct (str_eqb _ (u "HELP")); reflexivity. }
  destruct (dict_get payload (u "key")) as [[| | | |key| |]|];
    try reflexivity.
  cbn [is_str negb py_strip ret]. cbv beta iota.
  destruct (str_eqb (strip key) []); [reflexivity|].
  unfold load_local_data.
  destruct (data_file w) as [| | |n|data]; try reflexivity.
  destruct data as [| | | | |l|tbl]; try reflexivity; cbn [py_contains].
  - destruct (str_contains s (strip key)); reflexivity.
  - destruct (existsb _ l); reflexivity.
  - unfold dict_has. destruct (dict_get tbl (strip key)); reflexivity.
Qed.

End DispatcherMore.

(** ** What the read loop leaves alone *)

Lemma closes_app (a b : list event) :
  closes (a ++ b) = (closes a + closes b)%nat.
Proof.
  induction a as [|e a IH]; [reflexivity|].
  destruct e; cbn [closes app]; rewrite IH; reflexivity.
Qed.

Section Frame.

Variable h : host.
Variable R : world -> world -> Prop.

Hypothesis R_refl : forall w, R w w.
Hypothesis R_trans : forall w1 w2 w3, R w1 w2 -> R w2 w3 -> R w1 w3.
Hypothesis R_sendall : forall r w, R w (snd (sendall r w)).
Hypothesis R_read : forall w, R w (snd (with_lock read_count w)).
Hypothesis R_clock : forall w, R w (snd (now_iso h w)).

Lemma frame_handle_request (req : json) (w : world) :
  R w (snd (handle_request h req w)).
Proof.
  unfold handle_request, bind, lift.
  destruct (py_getitem req (u "type")) as [ty|e]; [|apply R_refl].
  destruct (py_strip ty) as [stripped|e]; [|apply R_refl].
  destruct (py_getitem req (u "request_id")) as [rid|e]; [|apply R_refl].
  destruct (py_getitem req (u "payload")) as [payload|e]; [|apply R_refl].
  destruct (str_eqb _ (u "ECHO")).
  { destruct (lacks_str payload (u "message")) as [[|]|e];
      try apply R_refl.
    destruct (py_getitem payload (u "message")); apply R_refl. }
  destruct (str_eqb _ (u "SYSTEM_INFO")).
  { pose proof (R_read w) as H1.
    destruct (with_lock read_count w) as [[v|e] w1]; cbn [snd] in *;
      [|exact H1].
    pose proof (R_clock w1) as H2. unfold ret.
    destruct (now_iso h w1) as [[t|e] w2]; cbn [snd] in *; eauto. }
  destruct (str_eqb _ (u "FILE_QUERY")).
  { destruct (lacks_str payload (u "key")) as [[|]|e]; try apply R_refl.
    destruct (py_getitem payload (u "key")) as [raw|e]; [|apply R_refl].
    destruct (py_strip raw) as [key|e]; [|apply R_refl].
    unfold ret. destruct (str_eqb key []); [apply R_refl|].
    unfold load_local_data.
    destruct (data_file w) as [| | |n|data]; try apply R_refl;
      match goal with
      | |- context [py_contains ?c key] =>
          destruct (py_contains c key) as [[|]|e]; try apply R_refl;
          destruct (py_getitem c key); apply R_refl
      end. }
  destruct (str_eqb _ (u "HELP")); apply R_refl.
Qed.

Lemma frame_body (line : pystr) (w : world) :
  R w (snd (client_thread_body h line w)).
Proof.
  unfold client_thread_body.
  destruct (json_loads h line) as [req_obj| |n]; try apply R_sendall;
    [|apply R_refl].
  destruct (validate_request req_obj) as [[|] msg]; cbn [negb];
    [|apply R_sendall].
  unfold bind. pose proof (frame_handle_request req_obj w) as H1.
  destruct (handle_request h req_obj w) as [[r|e] w1]; cbn [snd] in *;
    [|exact H1].
  eauto.
Qed.

Lemma frame_loop (reads : list read_result) (w : world) :
  R w (snd (client_thread_loop h reads w)).
Proof.
  revert w. induction reads as [|[line|e] rest IH]; intros w;
    cbn [client_thread_loop]; try apply R_refl.
  destruct line as [|c line]; [apply R_refl|].
  destruct (strip (c :: line)) as [|c' l']; [apply IH|].
  unfold bind. pose proof (frame_body (c' :: l') w) as H1.
  destruct (client_thread_body h (c' :: l') w) as [[[]|e] w1];
    cbn [snd] in *; eauto.
Qed.

Lemma frame_on_error (ex : exn) (w : world) : R w (snd (on_error ex w)).
Proof.
  destruct ex; cbn [on_error]; try apply R_refl; unfold try_except, ret;
    match goal with
    | |- context [sendall ?r w] =>
        pose proof (R_sendall r w) as H1;
        destruct (sendall r w) as [[[]|e] w1]; exact H1
    end.
Qed.

(** The [try] block of a session changes the world only by [sendall]
    calls, locked reads of the counter and readings of the clock. *)
Lemma frame_try (reads : list read_result) (w : world) :
  R w (snd (client_thread_try h reads w)).
Proof.
  unfold client_thread_try, try_except.
  pose proof (frame_loop reads w) as H1.
  destruct (client_thread_loop h reads w) as [[[]|e] w1]; cbn [snd] in *;
    [exact H1|].
  eauto using frame_on_error.
Qed.

End Frame.

(** ** More of the session *)

Section SessionMore.

Variable h : host.

Lemma sendall_exact (r : dict) (w : world) :
  exists w1,
    sendall r w = (match hd None (send_faults w) with
                   | None => Ok tt
                   | Some e => Raise e
                   end, w1) /\
    log w1 = log w ++ [Sendall r (hd None (send_faults w))] /\
    send_faults w1 = tl (send_faults w) /\
    data_file w1 = data_file w /\
    active_clients w1 = active_clients w /\
    ticks w1 = ticks w.
Proof.
  unfold sendall. destruct (hd None (send_faults w));
    eexists; (split; [reflexivity|]); repeat split.
Qed.

Lemma session_start_exact (w : world) :
  with_lock (add_count 1 Incr) w = (Ok tt, session_start w) /\
  log (session_start w)
  = log w ++ [Acquire (hd 0 (others w)); Incr; Release] /\
  active_clients (session_start w)
  = active_clients w + hd 0 (others w) + 1 /\
  others (session_start w) = tl (others w) /\
  send_faults (session_start w) = send_faults w /\
  data_file (session_start w) = data_file w /\
  close_fault (session_start w) = close_fault w.
Proof.
  split; [reflexivity|]. cbn. repeat split. now rewrite <- !app_assoc.
Qed.

Lemma finally_exact (w : world) :
  exists w',
    client_thread_finally w = (Ok tt, w') /\
    log w' = log w ++ [ Close (close_fault w); Acquire (hd 0 (others w));
                        Decr; Release ] /\
    active_clients w' = active_clients w + hd 0 (others w) - 1 /\
    lock_held w' = false.
Proof.
  unfold client_thread_finally, bind, try_except, conn_close.
  destruct (close_fault w) as [e|] eqn:Hc; eexists;
    (split; [reflexivity|]); cbn; rewrite ?Hc;
    repeat split; try (now rewrite <- !app_assoc); lia.
Qed.

(** A session is its registration, its [try] block and its [finally]
    block, one after the other; it always returns normally. *)
Lemma client_thread_unfold (reads : list read_result) (w : world) :
  client_thread h reads w
  = (Ok tt,
     snd (client_thread_finally
            (snd (client_thread_try h reads (session_start w))))).
Proof.
  unfold client_thread, bind, try_finally.
  destruct (session_start_exact w) as (-> & _).
  pose proof (client_thread_try_returns h reads (session_start w)) as Hok.
  destruct (client_thread_try h reads (session_start w)) as [r w2].
  cbn [fst snd] in *. subst r.
  destruct (finally_exact w2) as (w3 & -> & _). reflexivity.
Qed.

Lemma client_thread_trace (reads : list read_result) (w : world) :
  trace_of (client_thread h reads) w
  = [Acquire (hd 0 (others w)); Incr; Release]
    ++ trace_of (client_thread_try h reads) (session_start w)
    ++ [ Close (close_fault w);
         Acquire (hd 0 (others (snd (client_thread_try h reads
                                       (session_start w)))));
         Decr; Release ].
Proof.
  unfold trace_of at 1. rewrite client_thread_unfold. cbn [snd].
  destruct (session_start_exact w) as (_ & L1 & _ & _ & _ & _ & C1).
  destruct (quietly_try h reads (session_start w)) as (evs & E2 & _ & _).
  rewrite (evolves_trace _ _ _ E2).
  destruct E2 as [L2 _ _ C2].
  destruct (finally_exact (snd (client_thread_try h reads (session_start w))))
    as (w3 & -> & L3 & _).
  cbn [snd]. rewrite L3, L2, L1, C2, C1, <- !app_assoc.
  apply skipn_own_log.
Qed.

Lemma body_of_valid (line : pystr) (req : json) (w : world) :
  json_loads h line = Loaded req ->
  fst (validate_request req) = true ->
  client_thread_body h line w
  = (resp_obj <- handle_request h req ;; sendall resp_obj) w.
Proof.
  intros Hload Hv. unfold client_thread_body. rewrite Hload.
  destruct (validate_request req) as [valid msg]. cbn [fst] in Hv.
  now subst valid.
Qed.

Lemma try_after_body (line : pystr) (rest : list read_result)
    (w w1 : world) (evs : list event) :
  strip line <> [] ->
  client_thread_body h (strip line) w = (Ok tt, w1) ->
  log w1 = log w ++ evs ->
  trace_of (client_thread_try h (Line line :: rest)) w
  = evs ++ trace_of (client_thread_try h rest) w1.
Proof.
  intros Hline Hbody Hlog. unfold trace_of at 1.
  rewrite (try_first_line h line rest w Hline), Hbody.
  destruct (quietly_try h rest w1) as (evs2 & E2 & _ & _).
  rewrite (evolves_trace _ _ _ E2). destruct E2 as [L2 _ _ _].
  rewrite L2, Hlog, <- app_assoc. apply skipn_own_log.
Qed.


(** X9. A non-blank line that decodes to a JSON object failing validation
    is answered BAD_REQUEST with the validator's message. The reply carries
    the object's [request_id] when that is a string, even a blank one, and
    the empty string otherwise. The handler is not run: apart from the one
    [sendall] the world is untouched, and the loop goes on. *)
Theorem invalid_request_reply (line : pystr) (rest : list read_result)
    (d : dict) (msg : pystr) (w : world) :
  strip line <> [] ->
  json_loads h (strip line) = Loaded (JDict d) ->
  validate_request (JDict d) = (false, msg) ->
  hd None (send_faults w) = None ->
  exists r w1,
    client_thread_body h (strip line) w = (Ok tt, w1) /\
    trace_of (client_thread_body h (strip line)) w = [Sendall r None] /\
    is_error r
      (match dict_get d (u "request_id") with
       | Some (JStr rid) => JStr rid
       | _ => JStr []
       end)
      (u "BAD_REQUEST") msg /\
    active_clients w1 = active_clients w /\
    ticks w1 = ticks w /\
    client_thread_loop h (Line line :: rest) w = client_thread_loop h rest w1.
Proof.
  intros Hline Hload Hval Hsend.
  assert (Hbody : exists r w1,
    client_thread_body h (strip line) w = (Ok tt, w1) /\
    log w1 = log w ++ [Sendall r None] /\
    is_error r
      (match dict_get d (u "request_id") with
       | Some (JStr rid) => JStr rid
       | _ => JStr []
       end)
      (u "BAD_REQUEST") msg /\
    active_clients w1 = active_clients w /\
    ticks w1 = ticks w).
  { unfold client_thread_body. rewrite Hload, Hval. cbn [negb].
    pose proof (best_effort_id (JDict d)) as Hbe.
    cbv beta iota zeta in Hbe |- *. rewrite Hbe. unfold recoverable_id.
    match goal with
    | |- context [sendall ?r w] =>
        destruct (sendall_exact r w) as (w1 & Hs & Hl & _ & _ & Hc & Ht);
        exists r, w1
    end.
    rewrite Hsend in Hs, Hl.
    split; [exact Hs|]. split; [exact Hl|]. split; [|auto].
    destruct (dict_get d (u "request_id")) as [[| | | |rid| |]|];
      repeat split. }
  destruct Hbody as (r & w1 & Hb & Hl & Hr & Hc & Ht). exists r, w1.
  split; [exact Hb|]. split; [|split; [exact Hr|split; [exact Hc|split;
    [exact Ht|]]]].
  - unfold trace_of. rewrite Hb. cbn [snd]. rewrite Hl.
    apply skipn_own_log.
  - now apply (loop_first_line h).
Qed.

(** X10. Every session closes the socket exactly once, after its last
    [sendall] and before it takes itself off the counter: the trace is the
    registration, a part without any close, then the close and the locked
    decrement. This holds on every path through the session. *)
Theorem session_closes_once (reads : list read_result) (w : world) :
  exists d0 mid d1,
    trace_of (client_thread h reads) w
    = [Acquire d0; Incr; Release] ++ mid
      ++ [Close (close_fault w); Acquire d1; Decr; Release] /\
    closes mid = O /\
    closes (trace_of (client_thread h reads) w) = 1%nat /\
    attempted (trace_of (client_thread h reads) w) = attempted mid.
Proof.
  rewrite client_thread_trace.
  set (w1 := session_start w).
  assert (Hmid : closes (trace_of (client_thread_try h reads) w1) = O).
  { assert (HR : exists evs,
        log (snd (client_thread_try h reads w1)) = log w1 ++ evs /\
        closes evs = O).
    { apply (frame_try h (fun a b => exists evs,
               log b = log a ++ evs /\ closes evs = O)).
      - intros a. exists []. now rewrite app_nil_r.
      - intros a b c (e1 & L1 & C1) (e2 & L2 & C2). exists (e1 ++ e2).
        rewrite L2, L1, app_assoc, closes_app, C1, C2. auto.
      - intros r a. destruct (sendall_exact r a) as (a1 & Hs & Hl & _).
        rewrite Hs. cbn [snd]. eauto.
      - intros a. destruct (locked_read_run a) as (d & v & a1 & Hr & He & _).
        rewrite Hr. cbn [snd]. destruct He as [L _ _ _]. eauto.
      - intros a. exists []. cbn. now rewrite app_nil_r. }
    destruct HR as (evs & L & C). unfold trace_of. rewrite L.
    now rewrite skipn_own_log. }
  eexists. eexists. eexists. split; [reflexivity|].
  split; [exact Hmid|]. split.
  - rewrite !closes_app, Hmid. reflexivity.
  - rewrite !attempted_app. cbn [attempted app]. now rewrite app_nil_r.
Qed.

Lemma undisturbed_app (c : Z) (a b : list event) :
  undisturbed c a -> undisturbed c b -> undisturbed c (a ++ b).
Proof. unfold undisturbed. intros Ha Hb. apply Forall_app. auto. Qed.

(** Across the [try] block of a session that no other session disturbs,
    the counter keeps its value and every read of it sees that value. *)
Lemma try_undisturbed (reads : list read_result) (w : world) :
  others w = [] ->
  others (snd (client_thread_try h reads w)) = [] /\
  active_clients (snd (client_thread_try h reads w)) = active_clients w /\
  undisturbed (active_clients w) (trace_of (client_thread_try h reads) w).
Proof.
  intros Hw.
  assert (HR : others w = [] ->
    others (snd (client_thread_try h reads w)) = [] /\
    active_clients (snd (client_thread_try h reads w)) = active_clients w /\
    exists evs,
      log (snd (client_thread_try h reads w)) = log w ++ evs /\
      undisturbed (active_clients w) evs).
  { apply (frame_try h (fun a b => others a = [] ->
             others b = [] /\ active_clients b = active_clients a /\
             exists evs, log b = log a ++ evs /\
                         undisturbed (active_clients a) evs)).
    - intros a Ha. split; [exact Ha|]. split; [reflexivity|].
      exists []. split; [now rewrite app_nil_r|constructor].
    - intros a b c Hab Hbc Ha.
      destruct (Hab Ha) as (Hb & Cb & e1 & L1 & U1).
      destruct (Hbc Hb) as (Hc & Cc & e2 & L2 & U2).
      split; [exact Hc|]. split; [congruence|]. exists (e1 ++ e2).
      split; [now rewrite L2, L1, app_assoc|].
      apply undisturbed_app; [exact U1|now rewrite <- Cb].
    - intros r a Ha. unfold sendall.
      destruct (hd None (send_faults a)); cbn; repeat split; auto;
        eexists; (split; [reflexivity|]); repeat constructor.
    - intros a Ha. cbn. rewrite Ha. cbn. repeat split; [lia|].
      eexists. split; [now rewrite <- !app_assoc|].
      repeat constructor. lia.
    - intros a Ha. cbn. repeat split; auto. exists [].
      split; [now rewrite app_nil_r|constructor]. }
  destruct (HR Hw) as (Ho & Hc & evs & L & U).
  split; [exact Ho|]. split; [exact Hc|].
  unfold trace_of. now rewrite L, skipn_own_log.
Qed.

(** X11. A session that runs while no other session changes the counter
    sees the counter at its initial value plus one at every read made for
    SYSTEM_INFO, and leaves the counter at its initial value when it
    ends. *)
Theorem lone_session_counter (reads : list read_result) (w : world) :
  others w = [] ->
  undisturbed (active_clients w + 1) (trace_of (client_thread h reads) w) /\
  active_clients (snd (client_thread h reads w)) = active_clients w.
Proof.
  intros Hw.
  destruct (session_start_exact w) as (_ & _ & C1 & O1 & _).
  rewrite Hw in C1, O1. cbn [hd tl] in C1, O1.
  destruct (try_undisturbed reads (session_start w) O1) as (O2 & C2 & U2).
  split.
  - rewrite client_thread_trace, Hw, O2. cbn [hd].
    apply undisturbed_app; [repeat constructor|].
    apply undisturbed_app; [|repeat constructor].
    replace (active_clients w + 1) with (active_clients (session_start w))
      by lia.
    exact U2.
  - rewrite client_thread_unfold. cbn [snd].
    destruct (finally_exact (snd (client_thread_try h reads (session_start w))))
      as (w3 & -> & _ & C3 & _).
    cbn [snd]. rewrite C3, O2, C2, C1. cbn [hd]. lia.
Qed.

Lemma load_depends_on_file (w w1 : world) (v : json) :
  data_file w1 = data_file w ->
  load_local_data w = (Ok v, w) ->
  load_local_data w1 = (Ok v, w1).
Proof.
  unfold load_local_data. intros ->.
  destruct (data_file w); intros [= <-]; reflexivity.
Qed.

Lemma no_raise_with_table (line : pystr) (tbl : dict) (w : world) :
  load_local_data w = (Ok (JDict tbl), w) ->
  handler_raises h line w = false.
Proof.
  intros Hload. unfold handler_raises.
  destruct (json_loads h line) as [req| |]; try reflexivity.
  destruct (fst (validate_request req)) eqn:Hv; [|reflexivity].
  destruct (validated_intro req Hv) as (ty & rid & p & Hvd).
  destruct (handle_request_total h req ty (JStr rid) p tbl w Hvd Hload)
    as (r & ->).
  reflexivity.
Qed.

(** When the decoder does not crash and the handler does not raise, the
    loop body hands exactly one reply to [sendall], and what the body does
    next is what that [sendall] did. *)
Lemma body_attempt (line : pystr) (w : world) :
  (forall n, json_loads h line <> LoadsCrash n) ->
  handler_raises h line w = false ->
  exists r evs w1,
    client_thread_body h line w
    = (match hd None (send_faults w) with
       | None => Ok tt
       | Some e => Raise e
       end, w1) /\
    log w1 = log w ++ evs ++ [Sendall r (hd None (send_faults w))] /\
    attempted evs = [] /\
    resp_request_id r = Some (JStr (recoverable_id (json_loads h line))) /\
    send_faults w1 = tl (send_faults w) /\
    data_file w1 = data_file w.
Proof.
  intros Hclean. unfold handler_raises, client_thread_body.
  destruct (json_loads h line) as [req_obj| |n];
    [| |now elim (Hclean n)].
  - destruct (validate_request req_obj) as [[|] msg] eqn:Hval;
      cbn [negb fst andb].
    + destruct (handle_request_run h req_obj w)
        as (evs & He & _ & Hatt & Hsf & Hres).
      unfold bind.
      destruct (handle_request h req_obj w) as [[r|e] w1];
        cbn [fst snd] in *; [|discriminate].
      intros _. destruct Hres as (_ & rid & Hrid & Hr).
      destruct (sendall_exact r w1) as (w2 & Hs & Hl & Hsf2 & Hdf & _).
      exists r, evs, w2. rewrite Hs, Hl, Hsf2, Hdf, Hsf.
      destruct He as [L _ F _]. rewrite L, F, <- app_assoc.
      repeat split; auto.
      assert (Hv : fst (validate_request req_obj) = true)
        by now rewrite Hval.
      destruct (validate_request_ok req_obj Hv)
        as (d & ty & s & p & -> & _ & _ & Hs' & _ & _).
      unfold py_getitem in Hrid. unfold recoverable_id.
      rewrite Hs' in Hrid |- *. congruence.
    + intros _.
      pose proof (best_effort_id req_obj) as Hbe.
      cbv beta iota zeta in Hbe |- *. rewrite Hbe.
      match goal with
      | |- context [sendall ?r w] =>
          destruct (sendall_exact r w) as (w1 & Hs & Hl & Hsf & Hdf & _);
          exists r, [], w1
      end.
      repeat split; assumption.
  - intros _.
    match goal with
    | |- context [sendall ?r w] =>
        destruct (sendall_exact r w) as (w1 & Hs & Hl & Hsf & Hdf & _);
        exists r, [], w1
    end.
    repeat split; assumption.
Qed.

Lemma loop_skips_blank (line : pystr) (rest : list read_result) :
  line <> [] -> strip line = [] ->
  client_thread_loop h (Line line :: rest) = client_thread_loop h rest.
Proof.
  intros Hne Hblank. destruct line as [|c l]; [now elim Hne|].
  cbn [client_thread_loop]. now rewrite Hblank.
Qed.

Lemma loop_transcript (lines : list pystr) :
  forall (w : world) (tbl : dict),
    Forall (fun line => line <> []) lines ->
    decodes_cleanly h lines ->
    send_faults w = [] ->
    load_local_data w = (Ok (JDict tbl), w) ->
    exists evs w',
      client_thread_loop h (map Line lines) w = (Ok tt, w') /\
      log w' = log w ++ evs /\
      attempted evs = sent evs /\
      map resp_request_id (sent evs)
      = map (fun line =>
               Some (JStr (recoverable_id (json_loads h (strip line)))))
          (nonblank lines).
Proof.
  induction lines as [|line lines IH]; intros w tbl Hne Hclean Hsf Hload.
  - exists [], w. cbn. now rewrite app_nil_r.
  - inversion Hne as [|? ? Hline Hrest]; subst.
    assert (Hclean' : decodes_cleanly h lines)
      by (intros l n Hin; apply Hclean; now right).
    cbn [map]. unfold nonblank. cbn [filter]. fold (nonblank lines).
    destruct (str_eqb (strip line) []) eqn:Hblank; cbn [negb].
    + apply str_eqb_eq in Hblank.
      rewrite (loop_skips_blank line _ Hline Hblank).
      now apply (IH w tbl).
    + apply str_eqb_nil in Hblank.
      destruct (body_attempt (strip line) w)
        as (r & evs & w1 & Hb & Hl & Hatt & Hid & Hsf1 & Hdf1).
      { intros n. apply Hclean. now left. }
      { now apply (no_raise_with_table _ tbl). }
      rewrite Hsf in Hb, Hl, Hsf1. cbn [hd tl] in Hb, Hl, Hsf1.
      rewrite (loop_first_line h line _ w w1 Hblank Hb).
      destruct (IH w1 tbl Hrest Hclean' Hsf1
                  (load_depends_on_file w w1 _ Hdf1 Hload))
        as (evs2 & w2 & Hloop & Hl2 & Hatt2 & Hids).
      exists ((evs ++ [Sendall r None]) ++ evs2), w2.
      split; [exact Hloop|].
      split; [now rewrite Hl2, Hl, !app_assoc|].
      rewrite !attempted_app, !sent_app, Hatt,
        (attempted_none_sent evs Hatt), Hatt2.
      cbn [attempted sent app map]. split; [reflexivity|].
      now rewrite Hid, Hids.
Qed.

(** X12. A session in which nothing goes wrong answers its lines one for
    one and in order: when every read returns a line, no [sendall] fails,
    the decoder does not crash and the data file loads to a lookup table,
    the replies that go out are exactly one per non-blank line, in the order
    of the lines, each carrying the request id recoverable from its line;
    blank lines get no reply and no reply is lost. *)
Theorem session_transcript (lines : list pystr) (tbl : dict) (w : world) :
  Forall (fun line => line <> []) lines ->
  decodes_cleanly h lines ->
  send_faults w = [] ->
  load_local_data w = (Ok (JDict tbl), w) ->
  map resp_request_id (sent (trace_of (client_thread h (map Line lines)) w))
  = map (fun line => Some (JStr (recoverable_id (json_loads h (strip line)))))
      (nonblank lines) /\
  attempted (trace_of (client_thread h (map Line lines)) w)
  = sent (trace_of (client_thread h (map Line lines)) w).
Proof.
  intros Hne Hclean Hsf Hload.
  destruct (session_start_exact w) as (_ & _ & _ & _ & Hsf1 & Hdf1 & _).
  destruct (loop_transcript lines (session_start w) tbl Hne Hclean)
    as (evs & w' & Hloop & Hl & Hatt & Hids).
  { now rewrite Hsf1. }
  { exact (load_depends_on_file w _ _ Hdf1 Hload). }
  assert (Htry : trace_of (client_thread_try h (map Line lines))
                   (session_start w) = evs).
  { unfold trace_of, client_thread_try, try_except. rewrite Hloop.
    cbn [snd]. rewrite Hl. apply skipn_own_log. }
  rewrite client_thread_trace, Htry, !sent_app, !attempted_app.
  cbn [sent attempted app]. rewrite !app_nil_r. auto.
Qed.


(** X14. When the [sendall] of a reply raises, the session handles no
    further line. After a ConnectionResetError nothing more is attempted;
    after any other exception one SERVER_ERROR response naming the
    exception type is attempted. *)
Theorem send_fault_ends_session (line : pystr) (rest : list read_result)
    (e : exn) (w : world) :
  strip line <> [] ->
  (forall n, json_loads h (strip line) <> LoadsCrash n) ->
  handler_raises h (strip line) w = false ->
  hd None (send_faults w) = Some e ->
  client_thread_try h (Line line :: rest) w
  = client_thread_try h [Line line] w /\
  exists r,
    resp_request_id r
    = Some (JStr (recoverable_id (json_loads h (strip line)))) /\
    attempted (trace_of (client_thread_try h (Line line :: rest)) w)
    = r :: match e with
           | ConnectionResetError => []
           | _ => [server_error_reply e]
           end /\
    sent (trace_of (client_thread_try h (Line line :: rest)) w)
    = match e with
      | ConnectionResetError => []
      | _ => match hd None (tl (send_faults w)) with
             | None => [server_error_reply e]
             | Some _ => []
             end
      end.
Proof.
  intros Hline Hclean Hnr Hsend.
  destruct (body_attempt (strip line) w Hclean Hnr)
    as (r & evs & w1 & Hb & Hl & Hatt & Hid & Hsf1 & _).
  rewrite Hsend in Hb, Hl.
  split.
  - now rewrite !(try_first_line h line _ w Hline), Hb.
  - exists r. split; [exact Hid|].
    unfold trace_of. rewrite (try_first_line h line rest w Hline), Hb.
    destruct e as [| |n]; cbn [on_error]; unfold try_except, ret;
      try (cbn [snd]; rewrite Hl, skipn_own_log, attempted_app, sent_app,
             Hatt, (attempted_none_sent evs Hatt); split; reflexivity);
      match goal with
      | |- context [sendall ?r' w1] =>
          destruct (sendall_exact r' w1) as (w2 & Hs & Hl2 & _);
          rewrite Hsf1 in Hs, Hl2; rewrite Hs
      end;
      destruct (hd None (tl (send_faults w))); cbn [snd];
      rewrite Hl2, Hl, <- !app_assoc, skipn_own_log,
        !attempted_app, !sent_app, Hatt, (attempted_none_sent evs Hatt);
      split; reflexivity.
Qed.

(** X15. A SYSTEM_INFO request on the first line of a session counts the
    session itself: the reply reports the counter's value before the
    session plus one, plus whatever other sessions added or removed while
    this one waited for the lock (nothing, when it runs alone). *)
Theorem system_info_counts_own_session (line : pystr)
    (rest : list read_result) (req : json) (ty : pystr) (rid : json)
    (payload : dict) (w : world) :
  strip line <> [] ->
  json_loads h (strip line) = Loaded req ->
  validated req ty rid payload ->
  normalised_type h ty = u "SYSTEM_INFO" ->
  hd None (send_faults w) = None ->
  exists r more,
    sent (trace_of (client_thread h (Line line :: rest)) w) = r :: more /\
    is_ok r rid
      [ (u "server_name", JStr (u "Tinashe-NetServer"));
        (u "server_time", JStr (clock h (ticks w)));
        (u "active_clients",
         JInt (active_clients w + hd 0 (others w) + 1
               + hd 0 (tl (others w))));
        (u "platform", JStr (platform_platform h)) ].
Proof.
  intros Hline Hload Hv Htype Hsend.
  destruct (session_start_exact w) as (_ & _ & C1 & O1 & S1 & _).
  destruct (system_info_run h req ty rid payload (session_start w) Hv Htype)
    as (w2 & Hr & Hl2 & _ & _ & _ & S2 & _).
  rewrite C1, O1 in Hr, Hl2.
  change (ticks (session_start w)) with (ticks w) in Hr.
  match type of Hr with
  | _ = (Ok ?r, _) =>
      destruct (sendall_exact r w2) as (w3 & Hs & Hl3 & _); exists r
  end.
  rewrite S2, S1, Hsend in Hs, Hl3.
  assert (Hbody : client_thread_body h (strip line) (session_start w)
                  = (Ok tt, w3)).
  { rewrite (body_of_valid _ req _ Hload (v_valid _ _ _ _ Hv)).
    unfold bind. now rewrite Hr. }
  rewrite client_thread_trace.
  rewrite (try_after_body line rest _ w3 _ Hline Hbody
             ltac:(rewrite Hl3, Hl2, <- app_assoc; reflexivity)).
  rewrite !sent_app. cbn [sent app]. eexists. split; [reflexivity|].
  repeat split.
Qed.

(** X19. The session stops reading at the end of the stream: once
    [readline] returns the empty string, whatever would come after it is
    never read, and the session runs exactly as if the stream ended
    there. *)
Theorem session_stops_at_eof (before after : list read_result) (w : world) :
  client_thread h (before ++ Line [] :: after) w = client_thread h before w.
Proof.
  assert (Hloop : client_thread_loop h (before ++ Line [] :: after)
                  = client_thread_loop h before).
  { induction before as [|[line|e] rest IH]; cbn [app client_thread_loop].
    - reflexivity.
    - destruct line as [|c l]; [reflexivity|]. now rewrite IH.
    - reflexivity. }
  unfold client_thread, client_thread_try. now rewrite Hloop.
Qed.

Lemma replay_app (c : Z) (a b : list event) :
  replay c (a ++ b)
  = match replay c a with
    | Some c' => replay c' b
    | None => None
    end.
Proof.
  revert c. induction a as [|e a IH]; intros c; [reflexivity|].
  destruct e; cbn [replay app]; try apply IH.
  destruct (v =? c); [apply IH|reflexivity].
Qed.

(** Across the [try] block the counter moves exactly as its trace says:
    it only takes in what other sessions did, and every read sees the
    value it then has. *)
Lemma try_replay (reads : list read_result) (w : world) :
  replay (active_clients w) (trace_of (client_thread_try h reads) w)
  = Some (active_clients (snd (client_thread_try h reads w))).
Proof.
  assert (HR : exists evs,
    log (snd (client_thread_try h reads w)) = log w ++ evs /\
    replay (active_clients w) evs
    = Some (active_clients (snd (client_thread_try h reads w)))).
  { apply (frame_try h (fun a b => exists evs,
             log b = log a ++ evs /\
             replay (active_clients a) evs = Some (active_clients b))).
    - intros a. exists []. split; [now rewrite app_nil_r|reflexivity].
    - intros a b c (e1 & L1 & P1) (e2 & L2 & P2). exists (e1 ++ e2).
      split; [now rewrite L2, L1, app_assoc|].
      now rewrite replay_app, P1.
    - intros r a. destruct (sendall_exact r a) as (a1 & Hs & Hl & _ & _ & Hc & _).
      rewrite Hs. cbn [snd]. eexists. split; [exact Hl|].
      cbn [replay]. now rewrite Hc.
    - intros a. cbn. eexists. split; [now rewrite <- !app_assoc|].
      cbn [replay app]. now rewrite Z.eqb_refl.
    - intros a. exists []. cbn. split; [now rewrite app_nil_r|reflexivity]. }
  destruct HR as (evs & L & P). unfold trace_of.
  now rewrite L, skipn_own_log.
Qed.

(** C6. A session adds one to the counter once, when it starts, and takes
    one off once, when it ends, on every path: whatever the reads, the
    decoder, the handler, [sendall] and [close] do. Writing [w1] for the
    world once the session has registered and [w2] for the world when its
    [try] block is over: the counter in [w1] is its initial value, plus what
    the other sessions did before the lock was obtained, plus one; between
    [w1] and [w2] it changes only by what the other sessions did; the final
    value is the one in [w2], plus what the other sessions did, minus one.
    Every access to the counter happens with the lock held, the lock
    protocol is respected, and the counter's value follows the trace event
    by event, each read seeing the current value. The session's own net
    change is zero: the counter ends at its initial value plus what the
    other sessions did meanwhile. *)
Theorem counter_balanced (reads : list read_result) (w : world) :
  let w1 := session_start w in
  let w2 := snd (client_thread_try h reads w1) in
  let w' := snd (client_thread h reads w) in
  let tr := trace_of (client_thread h reads) w in
  fst (client_thread h reads w) = Ok tt /\
  (exists d0 mid d1,
     tr = [Acquire d0; Incr; Release] ++ mid ++ [Acquire d1; Decr; Release] /\
     counter_writes mid = O) /\
  counter_writes tr = 2%nat /\
  disciplined false tr = true /\
  own_change tr = 0 /\
  active_clients w' = active_clients w + drift tr /\
  lock_held w' = false /\
  active_clients w1 = active_clients w + hd 0 (others w) + 1 /\
  active_clients w2
  = active_clients w1 + drift (trace_of (client_thread_try h reads) w1) /\
  active_clients w' = active_clients w2 + hd 0 (others w2) - 1 /\
  replay (active_clients w) tr = Some (active_clients w').
Proof.
  cbv zeta.
  destruct (session_start_exact w) as (_ & _ & C1 & _).
  destruct (quietly_try h reads (session_start w)) as (evs & E2 & Hq & _).
  pose proof (try_replay reads (session_start w)) as P2.
  rewrite client_thread_trace, client_thread_unfold.
  rewrite (evolves_trace _ _ _ E2) in *.
  destruct E2 as [_ C2 _ _].
  rewrite (quiet_own_change evs Hq) in C2.
  set (w2 := snd (client_thread_try h reads (session_start w))) in *.
  destruct (finally_exact w2) as (w3 & Hfin & _ & C3 & Hfree).
  rewrite Hfin. cbn [fst snd].
  split; [reflexivity|].
  split.
  { exists (hd 0 (others w)), (evs ++ [Close (close_fault w)]),
      (hd 0 (others w2)).
    split; [now rewrite <- !app_assoc|].
    now rewrite counter_writes_app, (quiet_counter_writes evs Hq). }
  split.
  { now rewrite !counter_writes_app, (quiet_counter_writes evs Hq). }
  split.
  { cbn [app disciplined negb andb]. now rewrite quiet_disciplined. }
  split.
  { now rewrite !own_change_app, (quiet_own_change evs Hq). }
  split.
  { rewrite !drift_app. cbn [drift]. lia. }
  split; [exact Hfree|].
  split; [exact C1|].
  split; [lia|].
  split; [exact C3|].
  rewrite replay_app. cbn [replay]. rewrite replay_app, <- C1, P2.
  cbn [replay]. now rewrite C3.
Qed.

End SessionMore.

(** ** The client's requests meet the server *)

Section ClientRequests.

Variable h : host.

(** X16. Every request a turn of the client's menu builds is accepted by
    the server's validation, carries the id drawn for it, and has one of the
    four types the dispatcher knows, whatever the user typed: the menu never
    earns a validation error or UNKNOWN_TYPE. This needs the id string not
    to be blank, as a printed UUID is. *)
Theorem menu_requests_are_valid (uuid_str choice_line typed : pystr)
    (req : json) :
  strip uuid_str <> [] ->
  menu_turn uuid_str choice_line typed = SendRequest req ->
  validate_request req = (true, []) /\
  exists ty payload,
    validated req ty (JStr uuid_str) payload /\
    In (normalised_type h ty)
       [u "ECHO"; u "SYSTEM_INFO"; u "FILE_QUERY"; u "HELP"].
Proof.
  intros Hid. unfold menu_turn. cbv zeta.
  assert (Hvalid : forall ty payload,
    strip ty <> [] ->
    validate_request (build_request uuid_str ty (JDict payload)) = (true, [])
    /\ validated (build_request uuid_str ty (JDict payload)) ty
         (JStr uuid_str) payload).
  { intros ty payload Hty.
    assert (Hv : validate_request (build_request uuid_str ty (JDict payload))
                 = (true, [])).
    { unfold build_request, validate_request, dict_has.
      change (dict_get _ (u "type")) with (Some (JStr ty)).
      change (dict_get _ (u "request_id")) with (Some (JStr uuid_str)).
      change (dict_get _ (u "payload")) with (Some (JDict payload)).
      cbv beta iota.
      now rewrite (str_eqb_neq _ _ Hty), (str_eqb_neq _ _ Hid). }
    split; [exact Hv|]. split; try reflexivity. now rewrite Hv. }
  destruct (str_eqb (strip choice_line) (u "1")).
  { intros [= <-]. destruct (Hvalid (u "ECHO") [(u "message", JStr typed)])
      as [H1 H2]; [discriminate|].
    split; [exact H1|]. eexists. eexists. split; [exact H2|].
    left. reflexivity. }
  destruct (str_eqb (strip choice_line) (u "2")).
  { intros [= <-]. destruct (Hvalid (u "SYSTEM_INFO") [])
      as [H1 H2]; [discriminate|].
    split; [exact H1|]. eexists. eexists. split; [exact H2|].
    right. left. reflexivity. }
  destruct (str_eqb (strip choice_line) (u "3")).
  { intros [= <-]. destruct (Hvalid (u "FILE_QUERY") [(u "key", JStr typed)])
      as [H1 H2]; [discriminate|].
    split; [exact H1|]. eexists. eexists. split; [exact H2|].
    right. right. left. reflexivity. }
  destruct (str_eqb (strip choice_line) (u "4")).
  { intros [= <-]. destruct (Hvalid (u "HELP") [])
      as [H1 H2]; [discriminate|].
    split; [exact H1|]. eexists. eexists. split; [exact H2|].
    right. right. right. left. reflexivity. }
  destruct (str_eqb (strip choice_line) (u "5")); discriminate.
Qed.

(** X17. Menu choice 1 end to end. Let the client build its ECHO request
    from the text the user typed, with an id that is not blank, and let the
    line the server reads next decode to that request. The session then
    validates it, handles it and, if [sendall] succeeds, writes exactly one
    reply: status OK, the client's request id, and [data = {echo: text}]
    with the text unchanged, empty or blank included; the loop goes on. *)
Theorem menu_echo_served (uuid_str choice_line typed line : pystr)
    (req : json) (rest : list read_result) (w : world) :
  strip choice_line = u "1" ->
  strip uuid_str <> [] ->
  menu_turn uuid_str choice_line typed = SendRequest req ->
  strip line <> [] ->
  json_loads h (strip line) = Loaded req ->
  hd None (send_faults w) = None ->
  validate_request req = (true, []) /\
  exists r w1,
    client_thread_body h (strip line) w = (Ok tt, w1) /\
    trace_of (client_thread_body h (strip line)) w = [Sendall r None] /\
    is_ok r (JStr uuid_str) [(u "echo", JStr typed)] /\
    client_thread_loop h (Line line :: rest) w = client_thread_loop h rest w1.
Proof.
  intros Hchoice Hid Hturn Hline Hload Hsend.
  unfold menu_turn in Hturn. cbv zeta in Hturn. rewrite Hchoice in Hturn.
  change (str_eqb (u "1") (u "1")) with true in Hturn. cbv iota in Hturn.
  injection Hturn as <-.
  assert (Hval : validate_request
            (build_request uuid_str (u "ECHO")
               (JDict [(u "message", JStr typed)])) = (true, [])).
  { unfold build_request, validate_request, dict_has.
    change (dict_get _ (u "type")) with (Some (JStr (u "ECHO"))).
    change (dict_get _ (u "request_id")) with (Some (JStr uuid_str)).
    change (dict_get _ (u "payload"))
      with (Some (JDict [(u "message", JStr typed)])).
    cbv beta iota.
    change (str_eqb (strip (u "ECHO")) []) with false.
    now rewrite (str_eqb_neq _ _ Hid). }
  split; [exact Hval|].
  assert (Hbody : exists r w1,
    client_thread_body h (strip line) w = (Ok tt, w1) /\
    log w1 = log w ++ [Sendall r None] /\
    is_ok r (JStr uuid_str) [(u "echo", JStr typed)]).
  { rewrite (body_of_valid h _ _ _ Hload) by now rewrite Hval.
    unfold bind.
    assert (Hh : handle_request h
                   (build_request uuid_str (u "ECHO")
                      (JDict [(u "message", JStr typed)])) w
                 = (Ok (make_response (JStr uuid_str) (u "OK")
                          (Some [(u "echo", JStr typed)]) None), w))
      by reflexivity.
    rewrite Hh.
    match goal with
    | |- context [sendall ?r w] =>
        destruct (sendall_exact r w) as (w1 & Hs & Hl & _); exists r, w1
    end.
    rewrite Hsend in Hs, Hl. split; [exact Hs|]. split; [exact Hl|].
    repeat split. }
  destruct Hbody as (r & w1 & Hb & Hl & Hr). exists r, w1.
  split; [exact Hb|]. split; [|split; [exact Hr|]].
  - unfold trace_of. rewrite Hb. cbn [snd]. rewrite Hl.
    apply skipn_own_log.
  - now apply (loop_first_line h).
Qed.

End ClientRequests.

(** * The further properties at concrete inputs *)

Lemma sample_host_decodes_cleanly (lines : list pystr) :
  decodes_cleanly sample_host lines.
Proof.
  intros line n _. cbn [json_loads sample_host]. unfold json_loads_fragment.
  destruct (parse_value _ _) as [[v rest]|]; [|discriminate].
  destruct (skip_ws rest); discriminate.
Qed.

Lemma validate_request_first_failure_witness :
  validate_request (JDict [(u "payload", JInt 3)])
  = (false, u "Missing or invalid 'type' field") /\
  validate_request (JDict [(u "type", JStr (u "ECHO")); (u "request_id", JStr (u "  "))])
  = (false, u "Missing or invalid 'request_id' field") /\
  validate_request (JDict [ (u "type", JStr (u "ECHO"));
                            (u "request_id", JStr (u "r1"));
                            (u "payload", JList []) ])
  = (false, u "Missing or invalid 'payload' field (must be an object)").
Proof.
  split; [|split].
  - apply (proj1 (validate_request_first_failure _)). reflexivity.
  - apply (proj1 (proj2 (validate_request_first_failure _))); reflexivity.
  - apply (proj2 (proj2 (validate_request_first_failure _)));
      try reflexivity.
    intros p H; vm_compute in H; discriminate H.
Defined.

Lemma system_info_reports_witness :
  validated (sample_request " system_info " []) (u " system_info ")
    (JStr (u "r1")) [] /\
  normalised_type sample_host (u " system_info ") = u "SYSTEM_INFO" /\
  exists r w',
    handle_request sample_host (sample_request " system_info " []) busy_world
    = (Ok r, w') /\
    resp_data r
    = Some (JDict [ (u "server_name", JStr (u "Tinashe-NetServer"));
                    (u "server_time", JStr (u "2024-01-01T00:00:00+00:00"));
                    (u "active_clients", JInt 5);
                    (u "platform", JStr (u "Linux")) ]) /\
    active_clients w' = 5.
Proof.
  assert (Hv : validated (sample_request " system_info " [])
                 (u " system_info ") (JStr (u "r1")) [])
    by (split; reflexivity).
  assert (Ht : normalised_type sample_host (u " system_info ")
               = u "SYSTEM_INFO") by reflexivity.
  split; [exact Hv|]. split; [exact Ht|].
  destruct (system_info_reports sample_host _ _ _ _ busy_world Hv Ht)
    as (r & w' & Hr & Hok & _ & Hc & _).
  exists r, w'. split; [exact Hr|]. split; [apply Hok|exact Hc].
Defined.

Lemma handle_request_reads_three_fields_witness :
  handle_request sample_host
    (JDict [ (u "payload", JDict [(u "message", JStr (u "hi"))]);
             (u "note", JInt 1);
             (u "request_id", JStr (u "r1"));
             (u "type", JStr (u "  Echo ")) ])
    (idle_world FileMissing)
  = handle_request sample_host
      (sample_request "ECHO" [(u "message", JStr (u "hi"))])
      (idle_world FileMissing).
Proof.
  apply (handle_request_reads_three_fields sample_host _ _
           (u "  Echo ") (u "ECHO") (JStr (u "r1"))
           [(u "message", JStr (u "hi"))]);
    try (split; reflexivity); reflexivity.
Defined.

Lemma handle_request_raises_only_on_bad_data_witness :
  fst (handle_request sample_host
         (sample_request "FILE_QUERY" [(u "key", JStr (u "k"))])
         (idle_world (FileJson (JList [JStr (u "k")]))))
  = Raise TypeError /\
  normalised_type sample_host (u "FILE_QUERY") = u "FILE_QUERY" /\
  snd (handle_request sample_host
         (sample_request "FILE_QUERY" [(u "key", JStr (u "k"))])
         (idle_world (FileJson (JList [JStr (u "k")]))))
  = idle_world (FileJson (JList [JStr (u "k")])).
Proof.
  assert (Hv : validated
            (sample_request "FILE_QUERY" [(u "key", JStr (u "k"))])
            (u "FILE_QUERY") (JStr (u "r1")) [(u "key", JStr (u "k"))])
    by (split; reflexivity).
  assert (Hraise : fst (handle_request sample_host
                     (sample_request "FILE_QUERY" [(u "key", JStr (u "k"))])
                     (idle_world (FileJson (JList [JStr (u "k")]))))
                   = Raise TypeError) by reflexivity.
  destruct (handle_request_raises_only_on_bad_data sample_host _ _ _ _ _ _
              Hv Hraise) as (Ht & _ & _ & _ & Hw).
  split; [exact Hraise|]. split; [exact Ht|exact Hw].
Defined.

Lemma file_query_without_data_witness :
  validated (sample_request "FILE_QUERY" [(u "key", JStr (u " missing-key "))])
    (u "FILE_QUERY") (JStr (u "r1")) [(u "key", JStr (u " missing-key "))] /\
  strip (u " missing-key ") <> [] /\
  returns
    (handle_request sample_host
       (sample_request "FILE_QUERY" [(u "key", JStr (u " missing-key "))]))
    (idle_world FileUnreadable)
    (fun r => is_error r (JStr (u "r1")) (u "NOT_FOUND")
                (u "Key 'missing-key' not found")) /\
  handle_request sample_host
    (sample_request "FILE_QUERY" [(u "key", JStr (u " missing-key "))])
    (idle_world (FileCrash (u "UnicodeDecodeError")))
  = (Raise (OtherException (u "UnicodeDecodeError")),
     idle_world (FileCrash (u "UnicodeDecodeError"))).
Proof.
  assert (Hv : validated
            (sample_request "FILE_QUERY" [(u "key", JStr (u " missing-key "))])
            (u "FILE_QUERY") (JStr (u "r1"))
            [(u "key", JStr (u " missing-key "))])
    by (split; reflexivity).
  assert (Hk : strip (u " missing-key ") <> [])
    by (intros H; vm_compute in H; discriminate H).
  split; [exact Hv|]. split; [exact Hk|]. split.
  - exact (proj2 (proj1 (file_query_without_data sample_host _ _ _ _ _
             (idle_world FileUnreadable) Hv eq_refl eq_refl Hk)
             (or_intror (or_introl eq_refl)))).
  - exact (proj2 (proj2 (file_query_without_data sample_host _ _ _ _ _
             (idle_world (FileCrash (u "UnicodeDecodeError")))
             Hv eq_refl eq_refl Hk)
             (u "UnicodeDecodeError") eq_refl)).
Defined.

Lemma file_query_against_array_witness :
  data_file (idle_world (FileJson (JList [JStr (u "k"); JInt 1])))
  = FileJson (JList [JStr (u "k"); JInt 1]) /\
  handle_request sample_host
    (sample_request "FILE_QUERY" [(u "key", JStr (u " k "))])
    (idle_world (FileJson (JList [JStr (u "k"); JInt 1])))
  = (Raise TypeError, idle_world (FileJson (JList [JStr (u "k"); JInt 1]))) /\
  returns
    (handle_request sample_host
       (sample_request "FILE_QUERY" [(u "key", JStr (u "j"))]))
    (idle_world (FileJson (JList [JStr (u "k"); JInt 1])))
    (fun r => is_error r (JStr (u "r1")) (u "NOT_FOUND")
                (u "Key 'j' not found")).
Proof.
  assert (Hv : forall k,
            validated (sample_request "FILE_QUERY" [(u "key", JStr k)])
              (u "FILE_QUERY") (JStr (u "r1")) [(u "key", JStr k)])
    by (intros k; split; reflexivity).
  split; [reflexivity|]. split.
  - apply (proj1 (file_query_against_array sample_host _ _ _ _ (u " k ")
                    [JStr (u "k"); JInt 1]
                    (idle_world (FileJson (JList [JStr (u "k"); JInt 1])))
                    (Hv (u " k ")) eq_refl eq_refl
                    ltac:(intros H; vm_compute in H; discriminate H)
                    eq_refl)).
    left. reflexivity.
  - apply (proj2 (file_query_against_array sample_host _ _ _ _ (u "j")
                    [JStr (u "k"); JInt 1]
                    (idle_world (FileJson (JList [JStr (u "k"); JInt 1])))
                    (Hv (u "j")) eq_refl eq_refl
                    ltac:(intros H; vm_compute in H; discriminate H)
                    eq_refl)).
    intros [H|[H|[]]]; vm_compute in H; discriminate H.
Defined.


Lemma invalid_request_reply_witness :
  strip (wire_line "{'type':'HELP','request_id':'  '}") <> [] /\
  json_loads sample_host (strip (wire_line "{'type':'HELP','request_id':'  '}"))
  = Loaded (JDict [ (u "type", JStr (u "HELP"));
                    (u "request_id", JStr (u "  ")) ]) /\
  exists r w1,
    trace_of
      (client_thread_body sample_host
         (strip (wire_line "{'type':'HELP','request_id':'  '}")))
      (idle_world FileMissing) = [Sendall r None] /\
    is_error r (JStr (u "  ")) (u "BAD_REQUEST")
      (u "Missing or invalid 'request_id' field") /\
    ticks w1 = O.
Proof.
  assert (Hline : strip (wire_line "{'type':'HELP','request_id':'  '}") <> [])
    by (intros H; vm_compute in H; discriminate H).
  assert (Hload : json_loads sample_host
                    (strip (wire_line "{'type':'HELP','request_id':'  '}"))
                  = Loaded (JDict [ (u "type", JStr (u "HELP"));
                                    (u "request_id", JStr (u "  ")) ]))
    by reflexivity.
  split; [exact Hline|]. split; [exact Hload|].
  destruct (invalid_request_reply sample_host _ [] _ _
              (idle_world FileMissing) Hline Hload eq_refl eq_refl)
    as (r & w1 & _ & Htr & Herr & _ & Ht & _).
  exists r, w1. split; [exact Htr|]. split; [exact Herr|exact Ht].
Defined.

Lemma lone_session_counter_witness :
  others (idle_world FileMissing) = [] /\
  undisturbed 1
    (trace_of
       (client_thread sample_host
          [Line (wire_line "{'type':'SYSTEM_INFO','request_id':'a','payload':{}}");
           Line (wire_line "{'type':'SYSTEM_INFO','request_id':'b','payload':{}}")])
       (idle_world FileMissing)) /\
  active_clients
    (snd (client_thread sample_host
            [Line (wire_line "{'type':'SYSTEM_INFO','request_id':'a','payload':{}}");
             Line (wire_line "{'type':'SYSTEM_INFO','request_id':'b','payload':{}}")]
            (idle_world FileMissing))) = 0.
Proof.
  split; [reflexivity|].
  exact (lone_session_counter sample_host _ (idle_world FileMissing) eq_refl).
Defined.

Lemma session_transcript_witness :
  Forall (fun line => line <> [])
    [ wire_line "{'type':'HELP','request_id':'r1','payload':{}}";
      u "  " ++ [10%N];
      wire_line "42";
      wire_line "{'type':'ping','request_id':'r2','payload':{}}" ] /\
  send_faults (idle_world FileMissing) = [] /\
  map resp_request_id
    (sent (trace_of
             (client_thread sample_host
                (map Line
                   [ wire_line "{'type':'HELP','request_id':'r1','payload':{}}";
                     u "  " ++ [10%N];
                     wire_line "42";
                     wire_line "{'type':'ping','request_id':'r2','payload':{}}" ]))
             (idle_world FileMissing)))
  = [Some (JStr (u "r1")); Some (JStr []); Some (JStr (u "r2"))].
Proof.
  assert (Hne : Forall (fun line => line <> [])
            [ wire_line "{'type':'HELP','request_id':'r1','payload':{}}";
              u "  " ++ [10%N];
              wire_line "42";
              wire_line "{'type':'ping','request_id':'r2','payload':{}}" ])
    by (repeat constructor; discriminate).
  split; [exact Hne|]. split; [reflexivity|].
  exact (proj1 (session_transcript sample_host _ [] (idle_world FileMissing)
                  Hne (sample_host_decodes_cleanly _) eq_refl eq_refl)).
Defined.

Lemma send_fault_ends_session_witness :
  strip (wire_line "42") <> [] /\
  handler_raises sample_host (strip (wire_line "42")) reset_world = false /\
  hd None (send_faults reset_world) = Some ConnectionResetError /\
  client_thread_try sample_host [Line (wire_line "42"); Line (wire_line "43")]
    reset_world
  = client_thread_try sample_host [Line (wire_line "42")] reset_world /\
  sent (trace_of
          (client_thread_try sample_host
             [Line (wire_line "42"); Line (wire_line "43")])
          reset_world) = [].
Proof.
  assert (Hline : strip (wire_line "42") <> [])
    by (intros H; vm_compute in H; discriminate H).
  assert (Hclean : forall n,
            json_loads sample_host (strip (wire_line "42")) <> LoadsCrash n)
    by (intros n; discriminate).
  split; [exact Hline|]. split; [reflexivity|]. split; [reflexivity|].
  destruct (send_fault_ends_session sample_host _ [Line (wire_line "43")]
              ConnectionResetError reset_world Hline Hclean eq_refl eq_refl)
    as (Hsame & r & _ & _ & Hsent).
  split; [exact Hsame|exact Hsent].
Defined.

Lemma system_info_counts_own_session_witness :
  strip (wire_line "{'type':'SYSTEM_INFO','request_id':'r1','payload':{}}")
  <> [] /\
  hd None (send_faults busy_world) = None /\
  exists r more,
    sent (trace_of
            (client_thread sample_host
               [Line (wire_line
                  "{'type':'SYSTEM_INFO','request_id':'r1','payload':{}}")])
            busy_world) = r :: more /\
    resp_data r
    = Some (JDict [ (u "server_name", JStr (u "Tinashe-NetServer"));
                    (u "server_time", JStr (u "2024-01-01T00:00:00+00:00"));
                    (u "active_clients", JInt 5);
                    (u "platform", JStr (u "Linux")) ]).
Proof.
  assert (Hline : strip (wire_line
            "{'type':'SYSTEM_INFO','request_id':'r1','payload':{}}") <> [])
    by (intros H; vm_compute in H; discriminate H).
  assert (Hv : validated (sample_request "SYSTEM_INFO" [])
                 (u "SYSTEM_INFO") (JStr (u "r1")) [])
    by (split; reflexivity).
  split; [exact Hline|]. split; [reflexivity|].
  destruct (system_info_counts_own_session sample_host _ [] _ _ _ _
              busy_world Hline eq_refl Hv eq_refl eq_refl)
    as (r & more & Hsent & Hok).
  exists r, more. split; [exact Hsent|apply Hok].
Defined.

Lemma menu_requests_are_valid_witness :
  strip (u "123e4567-e89b-42d3-a456-426614174000") <> [] /\
  menu_turn (u "123e4567-e89b-42d3-a456-426614174000") (u " 3 ") (u "   ")
  = SendRequest
      (build_request (u "123e4567-e89b-42d3-a456-426614174000")
         (u "FILE_QUERY") (JDict [(u "key", JStr (u "   "))])) /\
  validate_request
    (build_request (u "123e4567-e89b-42d3-a456-426614174000")
       (u "FILE_QUERY") (JDict [(u "key", JStr (u "   "))]))
  = (true, []).
Proof.
  assert (Hid : strip (u "123e4567-e89b-42d3-a456-426614174000") <> [])
    by (intros H; vm_compute in H; discriminate H).
  split; [exact Hid|]. split; [reflexivity|].
  exact (proj1 (menu_requests_are_valid sample_host _ (u " 3 ") (u "   ") _
                  Hid eq_refl)).
Defined.

Lemma menu_echo_served_witness :
  strip (u " 1 ") = u "1" /\
  strip (u "id-1") <> [] /\
  menu_turn (u "id-1") (u " 1 ") (u " hi ")
  = SendRequest (build_request (u "id-1") (u "ECHO")
                   (JDict [(u "message", JStr (u " hi "))])) /\
  json_loads sample_host
    (strip (wire_line
       "{'type':'ECHO','request_id':'id-1','payload':{'message':' hi '}}"))
  = Loaded (build_request (u "id-1") (u "ECHO")
              (JDict [(u "message", JStr (u " hi "))])) /\
  exists r w1,
    trace_of
      (client_thread_body sample_host
         (strip (wire_line
            "{'type':'ECHO','request_id':'id-1','payload':{'message':' hi '}}")))
      (idle_world FileMissing) = [Sendall r None] /\
    is_ok r (JStr (u "id-1")) [(u "echo", JStr (u " hi "))] /\
    client_thread_loop sample_host
      [Line (wire_line
         "{'type':'ECHO','request_id':'id-1','payload':{'message':' hi '}}")]
      (idle_world FileMissing)
    = client_thread_loop sample_host [] w1.
Proof.
  assert (Hid : strip (u "id-1") <> [])
    by (intros H; vm_compute in H; discriminate H).
  assert (Hline : strip (wire_line
            "{'type':'ECHO','request_id':'id-1','payload':{'message':' hi '}}")
          <> []) by (intros H; vm_compute in H; discriminate H).
  split; [reflexivity|]. split; [exact Hid|]. split; [reflexivity|].
  split; [reflexivity|].
  destruct (menu_echo_served sample_host (u "id-1") (u " 1 ") (u " hi ") _ _
              [] (idle_world FileMissing) eq_refl Hid eq_refl Hline
              eq_refl eq_refl)
    as (_ & r & w1 & _ & Htr & Hok & Hloop).
  exists r, w1. split; [exact Htr|]. split; [exact Hok|exact Hloop].
Defined.

Lemma handle_request_pure_unless_system_info_witness :
  normalised_type sample_host (u "file_query") <> u "SYSTEM_INFO" /\
  snd (handle_request sample_host
         (sample_request "file_query" [(u "key", JStr (u "foo"))])
         busy_world) = busy_world.
Proof.
  assert (Hv : validated
            (sample_request "file_query" [(u "key", JStr (u "foo"))])
            (u "file_query") (JStr (u "r1")) [(u "key", JStr (u "foo"))])
    by (split; reflexivity).
  assert (Hnot : normalised_type sample_host (u "file_query")
                 <> u "SYSTEM_INFO")
    by (intros H; vm_compute in H; discriminate H).
  split; [exact Hnot|].
  exact (handle_request_pure_unless_system_info sample_host _ _ _ _
           busy_world Hv Hnot).
Defined.
